(** * The n8n REST client ([src/n8n-client.ts]) as a shallow embedding

    The class [N8nClient] is a thin layer over the platform's [fetch]: every
    public method builds a path, optionally serialises a JSON body, issues one
    request through the private [request] primitive and post-processes the
    response.  The embedding keeps that shape:

    - JavaScript strings are [string]s holding the UTF-8 bytes of the text
      (strings with unpaired surrogates have no such form and are not
      modelled);
    - JavaScript values are the inductive type [Value];
    - [async] code runs in the monad [Async]: a computation is given the
      behaviour of [fetch] and yields the list of requests it issued together
      with its completion (a value, or a thrown value).

    The platform functions the client calls ([encodeURIComponent],
    [URLSearchParams], [JSON.stringify], [String], [Array.prototype.find],
    ...) are written out after their ECMAScript / WHATWG definitions, on the
    values the model has. *)

From Stdlib Require Import ZArith NArith List String Ascii Bool Lia.
From Stdlib Require Import DecimalString.
Import ListNotations.

Local Open Scope string_scope.
Local Open Scope Z_scope.

(* ================================================================== *)
(** ** Strings *)
(* ================================================================== *)

Module Str.

(** The double-quote character. *)
Definition dquote : ascii := ascii_of_nat 34.

(** [String.prototype.includes]: does [needle] occur in [hay]? *)
Fixpoint includes (needle hay : string) : bool :=
  String.prefix needle hay ||
  match hay with
  | EmptyString => false
  | String _ rest => includes needle rest
  end.

(** [Array.prototype.join] on strings. *)
Fixpoint join (sep : string) (l : list string) : string :=
  match l with
  | [] => ""
  | [x] => x
  | x :: rest => x ++ sep ++ join sep rest
  end.

(** Every character of [s] satisfies [p]. *)
Fixpoint all (p : ascii -> bool) (s : string) : bool :=
  match s with
  | EmptyString => true
  | String c rest => p c && all p rest
  end.

(** [s.split(sep)] for a one-character separator. *)
Fixpoint split (sep : ascii) (s : string) : list string :=
  match s with
  | EmptyString => [""]
  | String c rest =>
      if Ascii.eqb c sep then "" :: split sep rest
      else match split sep rest with
           | [] => [String c ""]
           | hd :: tl => String c hd :: tl
           end
  end.

(** [n] copies of the character [c]. *)
Fixpoint replicate (n : nat) (c : ascii) : string :=
  match n with
  | O => ""
  | S k => String c (replicate k c)
  end.

Definition hex_digit_upper (n : N) : ascii :=
  ascii_of_N (if (n <? 10)%N then 48 + n else 55 + n)%N.

Definition hex_digit_lower (n : N) : ascii :=
  ascii_of_N (if (n <? 10)%N then 48 + n else 87 + n)%N.

(** ["%XX"], the percent-encoding of one byte. *)
Definition percent_byte (c : ascii) : string :=
  let n := N_of_ascii c in
  String "%" (String (hex_digit_upper (n / 16)) (String (hex_digit_upper (n mod 16)) "")).

Definition is_digit (c : ascii) : bool :=
  let n := N_of_ascii c in ((48 <=? n) && (n <=? 57))%N.

Definition is_upper (c : ascii) : bool :=
  let n := N_of_ascii c in ((65 <=? n) && (n <=? 90))%N.

Definition is_lower (c : ascii) : bool :=
  let n := N_of_ascii c in ((97 <=? n) && (n <=? 122))%N.

Definition is_alnum (c : ascii) : bool :=
  is_digit c || is_upper c || is_lower c.

(** A hexadecimal digit, in either case. *)
Definition is_hexdig (c : ascii) : bool :=
  let n := N_of_ascii c in
  is_digit c || ((65 <=? n) && (n <=? 70))%N || ((97 <=? n) && (n <=? 102))%N.

(** [c] is one of the characters of [set]. *)
Fixpoint mem (c : ascii) (set : string) : bool :=
  match set with
  | EmptyString => false
  | String d rest => Ascii.eqb c d || mem c rest
  end.

(** Decimal digits of an integer, with a leading [-] when negative. *)
Definition of_Z (z : Z) : string := NilZero.string_of_int (Z.to_int z).

End Str.

(* ================================================================== *)
(** ** JavaScript values *)
(* ================================================================== *)

(** Numbers.  [NInt z] is the double whose value is the integer [z] ([NInt 0]
    is [+0]); it stands for the integers below [10^21] in magnitude, which
    [Number::toString] prints as plain decimal digits.  Doubles with a
    fractional part are not modelled. *)
Inductive Number : Type :=
| NInt (z : Z)
| NNegZero
| NNaN
| NInfinity (negative : bool).

(** [Number::toString] (radix 10). *)
Definition Number_toString (n : Number) : string :=
  match n with
  | NInt z => Str.of_Z z
  | NNegZero => "0"
  | NNaN => "NaN"
  | NInfinity false => "Infinity"
  | NInfinity true => "-Infinity"
  end.

(** Values: the primitives, arrays, plain objects (own enumerable data
    properties in insertion order, each key once, prototype
    [Object.prototype]) and [Error] instances ([name] from the prototype
    chain, [message] an own property). *)
#[warnings="-register-all"]
Inductive Value : Type :=
| VUndefined
| VNull
| VBool (b : bool)
| VNumber (n : Number)
| VString (s : string)
| VArray (elems : list Value)
| VObject (props : list (string * Value))
| VError (name message : string).

(** Outcome of evaluating an expression or awaiting a promise. *)
Inductive Completion (A : Type) : Type :=
| Normal (a : A)
| Throw (e : Value).
Arguments Normal {A} a.
Arguments Throw {A} e.

Definition TypeError (message : string) : Value := VError "TypeError" message.

(** [new Error(message)]. *)
Definition new_Error (message : string) : Value := VError "Error" message.

Definition is_nullish (v : Value) : bool :=
  match v with
  | VUndefined | VNull => true
  | _ => false
  end.

(** [ToBoolean]. *)
Definition ToBoolean (v : Value) : bool :=
  match v with
  | VUndefined | VNull => false
  | VBool b => b
  | VNumber (NInt z) => negb (z =? 0)
  | VNumber NNegZero | VNumber NNaN => false
  | VNumber (NInfinity _) => true
  | VString s => negb (String.eqb s "")
  | VArray _ | VObject _ | VError _ _ => true
  end.

(** [a || b]. *)
Definition js_or (a b : Value) : Value := if ToBoolean a then a else b.

(** Lookup of an own property of a plain object. *)
Fixpoint lookup (key : string) (props : list (string * Value)) : option Value :=
  match props with
  | [] => None
  | (k, v) :: rest => if String.eqb k key then Some v else lookup key rest
  end.

Definition has_key (key : string) (props : list (string * Value)) : bool :=
  match lookup key props with
  | Some _ => true
  | None => false
  end.

(** The property read [v.key], for the keys the client reads: [data], [name]
    and [message].  None of the built-in prototypes of Object, Array, String,
    Number and Boolean defines them, so a read finds an own property or
    nothing; [Error.prototype] supplies [name] and the constructor
    [message].  Reading a property of [undefined] or [null] throws. *)
Definition Get (v : Value) (key : string) : Completion Value :=
  match v with
  | VUndefined =>
      Throw (TypeError ("Cannot read properties of undefined (reading '" ++ key ++ "')"))
  | VNull =>
      Throw (TypeError ("Cannot read properties of null (reading '" ++ key ++ "')"))
  | VObject props =>
      match lookup key props with
      | Some x => Normal x
      | None => Normal VUndefined
      end
  | VError name message =>
      if String.eqb key "message" then Normal (VString message)
      else if String.eqb key "name" then Normal (VString name)
      else Normal VUndefined
  | VBool _ | VNumber _ | VString _ | VArray _ => Normal VUndefined
  end.

(** [a === b] when [b] is a string: only that very string is equal to it. *)
Definition strict_eq_string (a : Value) (b : string) : bool :=
  match a with
  | VString s => String.eqb s b
  | _ => false
  end.

(** [ToString], as [String(v)] applies it.  A plain object prints as
    [[object Object]] through [Object.prototype.toString]; an own property
    [toString] shadows that method and, as the model has no function values,
    is not callable, so the conversion fails.  An array joins the strings of
    its elements, [null] and [undefined] printing as nothing.  An [Error]
    prints as [Error.prototype.toString] says. *)
Fixpoint ToString (v : Value) : Completion string :=
  match v with
  | VUndefined => Normal "undefined"
  | VNull => Normal "null"
  | VBool true => Normal "true"
  | VBool false => Normal "false"
  | VNumber n => Normal (Number_toString n)
  | VString s => Normal s
  | VArray elems =>
      (fix join_elems (l : list Value) : Completion string :=
         match l with
         | [] => Normal ""
         | [x] =>
             match x with
             | VUndefined | VNull => Normal ""
             | _ => ToString x
             end
         | x :: rest =>
             match (match x with
                    | VUndefined | VNull => Normal ""
                    | _ => ToString x
                    end) with
             | Throw e => Throw e
             | Normal sx =>
                 match join_elems rest with
                 | Throw e => Throw e
                 | Normal sr => Normal (sx ++ "," ++ sr)
                 end
             end
         end) elems
  | VObject props =>
      if has_key "toString" props
      then Throw (TypeError "Cannot convert object to primitive value")
      else Normal "[object Object]"
  | VError name message =>
      Normal (if String.eqb name "" then message
              else if String.eqb message "" then name
              else name ++ ": " ++ message)
  end.

(* ================================================================== *)
(** ** Platform functions the client calls *)
(* ================================================================== *)

(** [JSON.stringify(v)] without replacer or indentation. *)
Module JSON.

(** The two-character escapes of [QuoteJSONString]. *)
Definition escape (c : ascii) : string :=
  let n := N_of_ascii c in
  let bs := String (ascii_of_nat 92) "" in
  if (n =? 8)%N then bs ++ "b"
  else if (n =? 9)%N then bs ++ "t"
  else if (n =? 10)%N then bs ++ "n"
  else if (n =? 12)%N then bs ++ "f"
  else if (n =? 13)%N then bs ++ "r"
  else if (n =? 34)%N then bs ++ String Str.dquote ""
  else if (n =? 92)%N then bs ++ bs
  else if (n <? 32)%N then
    bs ++ "u00" ++ String (Str.hex_digit_lower (n / 16))
                     (String (Str.hex_digit_lower (n mod 16)) "")
  else String c "".

Fixpoint escape_all (s : string) : string :=
  match s with
  | EmptyString => ""
  | String c rest => escape c ++ escape_all rest
  end.

(** [QuoteJSONString]. *)
Definition quote (s : string) : string :=
  String Str.dquote (escape_all s ++ String Str.dquote "").

(** [SerializeJSONProperty]: [None] is the result [undefined].  Non-finite
    numbers print as [null]; an [undefined] array element prints as [null],
    an [undefined] property is left out; an [Error] has no enumerable own
    property. *)
Fixpoint serialize (v : Value) : option string :=
  match v with
  | VUndefined => None
  | VNull => Some "null"
  | VBool true => Some "true"
  | VBool false => Some "false"
  | VNumber (NInt z) => Some (Str.of_Z z)
  | VNumber NNegZero => Some "0"
  | VNumber NNaN | VNumber (NInfinity _) => Some "null"
  | VString s => Some (quote s)
  | VArray elems =>
      let items :=
        (fix go (l : list Value) : list string :=
           match l with
           | [] => []
           | x :: rest =>
               match serialize x with
               | Some sx => sx :: go rest
               | None => "null" :: go rest
               end
           end) elems in
      Some ("[" ++ Str.join "," items ++ "]")
  | VObject props =>
      let members :=
        (fix go (l : list (string * Value)) : list string :=
           match l with
           | [] => []
           | (k, x) :: rest =>
               match serialize x with
               | Some sx => (quote k ++ ":" ++ sx) :: go rest
               | None => go rest
               end
           end) props in
      Some ("{" ++ Str.join "," members ++ "}")
  | VError _ _ => Some "{}"
  end.

Definition stringify (v : Value) : option string := serialize v.

End JSON.

(** The characters [encodeURIComponent] leaves alone besides letters and
    digits. *)
Definition uri_unreserved_marks : string := "-_.!~*'()".

Definition uri_unreserved (c : ascii) : bool :=
  Str.is_alnum c || Str.mem c uri_unreserved_marks.

(** [encodeURIComponent]: every byte of the UTF-8 form that is not an
    unreserved character becomes [%XX]. *)
Fixpoint encodeURIComponent (s : string) : string :=
  match s with
  | EmptyString => ""
  | String c rest =>
      (if uri_unreserved c then String c "" else Str.percent_byte c)
      ++ encodeURIComponent rest
  end.

(** [URLSearchParams]: an ordered list of name-value pairs. *)
Module URLSearchParams.

Definition t : Type := list (string * string).

(** [new URLSearchParams()]. *)
Definition empty : t := [].

Definition remove (name : string) (q : t) : t :=
  filter (fun p => negb (String.eqb (fst p) name)) q.

(** [q.set(name, value)]: the first pair named [name] takes the value and
    the other pairs of that name go; without such a pair one is appended. *)
Fixpoint set (name value : string) (q : t) : t :=
  match q with
  | [] => [(name, value)]
  | (k, v) :: rest =>
      if String.eqb k name then (name, value) :: remove name rest
      else (k, v) :: set name value rest
  end.

(** Bytes the application/x-www-form-urlencoded serializer leaves alone. *)
Definition form_safe (c : ascii) : bool :=
  Str.is_alnum c || Str.mem c "*-._".

Fixpoint form_encode (s : string) : string :=
  match s with
  | EmptyString => ""
  | String c rest =>
      (if Ascii.eqb c " " then "+"
       else if form_safe c then String c ""
       else Str.percent_byte c)
      ++ form_encode rest
  end.

(** [q.toString()]. *)
Definition toString (q : t) : string :=
  Str.join "&" (map (fun p => form_encode (fst p) ++ "=" ++ form_encode (snd p)) q).

End URLSearchParams.

(** [s.replace(/\/+$/, "")]: the leftmost position from which only [/]
    characters follow up to the end, and at least one, is where the match
    starts; the match is removed. *)
Fixpoint replace_trailing_slashes (s : string) : string :=
  match s with
  | EmptyString => ""
  | String c rest =>
      if Ascii.eqb c "/" && Str.all (Ascii.eqb "/") rest then ""
      else String c (replace_trailing_slashes rest)
  end.

(** [Array.isArray]. *)
Definition Array_isArray (v : Value) : bool :=
  match v with
  | VArray _ => true
  | _ => false
  end.

(* ================================================================== *)
(** ** [fetch] and the [Async] monad *)
(* ================================================================== *)

(** The members of [RequestInit] the client sets. *)
Record RequestInit : Type := {
  method : option string;
  headers : option (list (string * string));
  body : option string
}.

(** The default [options = {}] of [request]. *)
Definition no_options : RequestInit :=
  {| method := None; headers := None; body := None |}.

(** One call [fetch(url, init)]. *)
Record FetchCall : Type := {
  url : string;
  init : RequestInit
}.

(** The HTTP method a call is sent with: [fetch] defaults to GET. *)
Definition http_method (call : FetchCall) : string :=
  match method (init call) with
  | Some m => m
  | None => "GET"
  end.

(** What the client reads of a [Response]: [status], [statusText],
    [headers.get("content-type")] ([None] for [null]) and the outcomes of
    awaiting [text()] and [json()]. *)
Record Response : Type := {
  status : N;
  statusText : string;
  content_type : option string;
  text : Completion string;
  json : Completion Value
}.

(** [response.ok]: the status is in the range 200-299. *)
Definition ok (r : Response) : bool :=
  ((200 <=? status r) && (status r <=? 299))%N.

(** The behaviour of the network: what awaiting [fetch(url, init)] gives. *)
Definition Fetch : Type := FetchCall -> Completion Response.

(** An asynchronous computation, run against a [Fetch]: the calls to [fetch]
    it made, in order, and how it completed. *)
Definition Async (A : Type) : Type := Fetch -> list FetchCall * Completion A.

Definition ret {A : Type} (a : A) : Async A := fun _ => ([], Normal a).

Definition throw {A : Type} (e : Value) : Async A := fun _ => ([], Throw e).

(** Awaiting something that involves no request. *)
Definition await {A : Type} (c : Completion A) : Async A := fun _ => ([], c).

Definition bind {A B : Type} (m : Async A) (k : A -> Async B) : Async B :=
  fun net =>
    let (calls, c) := m net in
    match c with
    | Normal a => let (calls', c') := k a net in ((calls ++ calls')%list, c')
    | Throw e => (calls, Throw e)
    end.

(** [try { m } catch (e) { handler e }]. *)
Definition try_catch {A : Type} (m : Async A) (handler : Value -> Async A) : Async A :=
  fun net =>
    let (calls, c) := m net in
    match c with
    | Normal a => (calls, Normal a)
    | Throw e => let (calls', c') := handler e net in ((calls ++ calls')%list, c')
    end.

(** [await fetch(url, init)]. *)
Definition fetch (call : FetchCall) : Async Response :=
  fun net => ([call], net call).

(** [promise.catch(() => fallback)]. *)
Definition catch_with {A : Type} (c : Completion A) (fallback : A) : A :=
  match c with
  | Normal a => a
  | Throw _ => fallback
  end.

(** [x || fallback] for a string [x] that may be [null]: the empty string is
    falsy too, and the fallback the client gives is the empty string. *)
Definition string_or (x : option string) (fallback : string) : string :=
  match x with
  | Some s => if String.eqb s "" then fallback else s
  | None => fallback
  end.

Declare Scope async_scope.
Delimit Scope async_scope with async.
Notation "x <- m ;; k" := (bind m (fun x => k))
  (at level 61, m at next level, right associativity) : async_scope.
Notation "m ;; k" := (bind m (fun _ => k))
  (at level 61, right associativity) : async_scope.
Local Open Scope async_scope.

(** The calls a computation makes and its completion, against [net]. *)
Definition calls {A : Type} (m : Async A) (net : Fetch) : list FetchCall := fst (m net).
Definition completion {A : Type} (m : Async A) (net : Fetch) : Completion A := snd (m net).

(* ================================================================== *)
(** ** The class [N8nClient] *)
(* ================================================================== *)

Record N8nClient : Type := {
  baseUrl : string;
  apiKey : string
}.

Definition constructor (baseUrl apiKey : string) : N8nClient :=
  {| baseUrl := replace_trailing_slashes baseUrl; apiKey := apiKey |}.

(** Object spread [{...o, ...extra}] on string-valued records: a key already
    there keeps its place and takes the new value, a new key goes last (keys
    that are array indices, which an object lists first, are no header
    names in use). *)
Fixpoint assign (o : list (string * string)) (k v : string) : list (string * string) :=
  match o with
  | [] => [(k, v)]
  | (k', v') :: rest =>
      if String.eqb k' k then (k, v) :: rest else (k', v') :: assign rest k v
  end.

Definition spread (o : list (string * string)) (extra : option (list (string * string)))
  : list (string * string) :=
  match extra with
  | None => o
  | Some e => fold_left (fun acc kv => assign acc (fst kv) (snd kv)) e o
  end.

Definition request_headers (c : N8nClient) (options : RequestInit)
  : list (string * string) :=
  spread [("Content-Type", "application/json");
          ("Accept", "application/json");
          ("X-N8N-API-KEY", apiKey c)]
         (headers options).

(** The message of the error a response outside the success range raises. *)
Definition api_error_message (r : Response) (body_text : string) : string :=
  "n8n API error " ++ Number_toString (NInt (Z.of_N (status r))) ++ " "
    ++ statusText r ++ ": " ++ body_text.

(** The arguments [request] gives [fetch]: [url] and
    [{...options, headers}]. *)
Definition request_call (c : N8nClient) (path : string) (options : RequestInit) : FetchCall :=
  let url := baseUrl c ++ path in
  let headers := request_headers c options in
  {| url := url;
     init := {| method := method options;
                headers := Some headers;
                body := body options |} |}.

(** [private async request(path, options = {})]. *)
Definition request (c : N8nClient) (path : string) (options : RequestInit) : Async Value :=
  response <- fetch (request_call c path options) ;;
  if negb (ok response) then
    let text := catch_with (text response) "" in
    throw (new_Error (api_error_message response text))
  else
    let contentType := string_or (content_type response) "" in
    if Str.includes "application/json" contentType then
      json <- await (json response) ;;
      data <- await (Get json "data") ;;
      ret (js_or data json)
    else
      s <- await (text response) ;;
      ret (VString s).

(** Options of a call that sends [JSON.stringify(v)] as body. *)
Definition with_body (m : string) (v : Value) : RequestInit :=
  {| method := Some m; headers := None; body := JSON.stringify v |}.

Definition without_body (m : string) : RequestInit :=
  {| method := Some m; headers := None; body := None |}.

Definition getInstanceInfo (c : N8nClient) : Async Value :=
  request c "/api/v1/health" no_options.

Definition getInstanceVersion (c : N8nClient) : Async Value :=
  request c "/api/v1/settings" no_options.

Definition listWorkflows (c : N8nClient) : Async Value :=
  request c "/api/v1/workflows" no_options.

Definition getWorkflow (c : N8nClient) (id : string) : Async Value :=
  request c ("/api/v1/workflows/" ++ encodeURIComponent id) no_options.

Definition createWorkflow (c : N8nClient) (data : Value) : Async Value :=
  request c "/api/v1/workflows" (with_body "POST" data).

Definition updateWorkflow (c : N8nClient) (id : string) (data : Value) : Async Value :=
  request c ("/api/v1/workflows/" ++ encodeURIComponent id) (with_body "PATCH" data).

Definition deleteWorkflow (c : N8nClient) (id : string) : Async Value :=
  request c ("/api/v1/workflows/" ++ encodeURIComponent id) (without_body "DELETE").

(** [executeWorkflow(id, data = {})]: the default applies to [undefined]. *)
Definition executeWorkflow (c : N8nClient) (id : string) (data : Value) : Async Value :=
  let data := match data with VUndefined => VObject [] | _ => data end in
  request c ("/api/v1/workflows/" ++ encodeURIComponent id ++ "/execute")
          (with_body "POST" (VObject [("data", data)])).

(** The argument of [getExecutions]; [None] is a member that is [undefined],
    [null] or missing, which [!= null] does not tell apart. *)
Record ExecutionsParams : Type := {
  limit : option Number;
  lastId : option string
}.

Definition no_params : ExecutionsParams := {| limit := None; lastId := None |}.

(** The [URLSearchParams] that [getExecutions] fills. *)
Definition executions_query (params : ExecutionsParams) : URLSearchParams.t :=
  let query := URLSearchParams.empty in
  let query :=
    match limit params with
    | Some n => URLSearchParams.set "limit" (Number_toString n) query
    | None => query
    end in
  let query :=
    match lastId params with
    | Some s => URLSearchParams.set "lastId" s query
    | None => query
    end in
  query.

(** [query.toString() ? `?${query.toString()}` : ""]. *)
Definition executions_suffix (params : ExecutionsParams) : string :=
  let q := URLSearchParams.toString (executions_query params) in
  if negb (String.eqb q "") then "?" ++ q else "".

Definition getExecutions (c : N8nClient) (params : ExecutionsParams) : Async Value :=
  request c ("/api/v1/executions" ++ executions_suffix params) no_options.

Definition getExecution (c : N8nClient) (id : string) : Async Value :=
  request c ("/api/v1/executions/" ++ encodeURIComponent id) no_options.

Definition stopExecution (c : N8nClient) (id : string) : Async Value :=
  request c ("/api/v1/executions/" ++ encodeURIComponent id)
          (with_body "POST" (VObject [("stop", VBool true)])).

Definition listTags (c : N8nClient) : Async Value :=
  request c "/api/v1/tags" no_options.

Definition createTag (c : N8nClient) (data : Value) : Async Value :=
  request c "/api/v1/tags" (with_body "POST" data).

Definition listCredentials (c : N8nClient) : Async Value :=
  request c "/api/v1/credentials" no_options.

Definition getCredential (c : N8nClient) (id : string) : Async Value :=
  request c ("/api/v1/credentials/" ++ encodeURIComponent id) no_options.

Definition createCredential (c : N8nClient) (data : Value) : Async Value :=
  request c "/api/v1/credentials" (with_body "POST" data).

Definition updateCredential (c : N8nClient) (id : string) (data : Value) : Async Value :=
  request c ("/api/v1/credentials/" ++ encodeURIComponent id) (with_body "PATCH" data).

Definition deleteCredential (c : N8nClient) (id : string) : Async Value :=
  request c ("/api/v1/credentials/" ++ encodeURIComponent id) (without_body "DELETE").

Definition listNodeTypes (c : N8nClient) : Async Value :=
  request c "/api/v1/node-types" no_options.

(** [Array.prototype.find] with the callback [(t) => t.name === name]. *)
Fixpoint find_by_name (name : string) (elems : list Value) : Completion Value :=
  match elems with
  | [] => Normal VUndefined
  | t :: rest =>
      match Get t "name" with
      | Throw e => Throw e
      | Normal n => if strict_eq_string n name then Normal t else find_by_name name rest
      end
  end.

(** [types.find(...)]: only an array has the method among the values of the
    model. *)
Definition call_find (types : Value) (name : string) : Completion Value :=
  match types with
  | VArray elems => find_by_name name elems
  | VUndefined =>
      Throw (TypeError "Cannot read properties of undefined (reading 'find')")
  | VNull =>
      Throw (TypeError "Cannot read properties of null (reading 'find')")
  | _ => Throw (TypeError "types.find is not a function")
  end.

Definition getNodeType (c : N8nClient) (name : string) : Async Value :=
  types <- request c "/api/v1/node-types" no_options ;;
  await (call_find types name).

Definition listVariables (c : N8nClient) : Async Value :=
  request c "/api/v1/variables" no_options.

Definition getVariable (c : N8nClient) (id : string) : Async Value :=
  request c ("/api/v1/variables/" ++ encodeURIComponent id) no_options.

Definition createVariable (c : N8nClient) (data : Value) : Async Value :=
  request c "/api/v1/variables" (with_body "POST" data).

Definition updateVariable (c : N8nClient) (id : string) (data : Value) : Async Value :=
  request c ("/api/v1/variables/" ++ encodeURIComponent id) (with_body "PATCH" data).

Definition deleteVariable (c : N8nClient) (id : string) : Async Value :=
  request c ("/api/v1/variables/" ++ encodeURIComponent id) (without_body "DELETE").

Definition activateWorkflow (c : N8nClient) (id : string) : Async Value :=
  updateWorkflow c id (VObject [("active", VBool true)]).

Definition deactivateWorkflow (c : N8nClient) (id : string) : Async Value :=
  updateWorkflow c id (VObject [("active", VBool false)]).

Definition testConnection (c : N8nClient) : Async bool :=
  try_catch (listWorkflows c ;; ret true)
            (fun error => ret false).

(** [workflows.length] of an array. *)
Definition array_length (v : Value) : Z :=
  match v with
  | VArray elems => Z.of_nat (List.length elems)
  | _ => 0
  end.

Definition selfTest (c : N8nClient) : Async Value :=
  try_catch
    (workflows <- listWorkflows c ;;
     ret (VObject
            [("status", VString "ok");
             ("message", VString "Connection successful");
             ("details",
              VObject [("workflowCount",
                        VNumber (NInt (if Array_isArray workflows
                                       then array_length workflows else 0)))])]))
    (fun error =>
       message <- await (Get error "message") ;;
       str <- await (ToString error) ;;
       ret (VObject
              [("status", VString "error");
               ("message", js_or message (VString "Connection failed"));
               ("details", VObject [("error", VString str)])])).

(* ================================================================== *)
(** ** Vocabulary of the properties: outcomes, sample networks, segments *)
(* ================================================================== *)

(** The completion of [request] as a function of what [fetch] produced: the
    branches of [request] after the [await fetch(...)], read off as one
    expression ([request_run] proves that this is how [request] runs). *)
Definition request_outcome (reply : Completion Response) : Completion Value :=
  match reply with
  | Throw e => Throw e
  | Normal r =>
      if negb (ok r) then
        Throw (new_Error (api_error_message r (catch_with (text r) "")))
      else if Str.includes "application/json" (string_or (content_type r) "") then
        match json r with
        | Throw e => Throw e
        | Normal j =>
            match Get j "data" with
            | Throw e => Throw e
            | Normal d => Normal (js_or d j)
            end
        end
      else
        match text r with
        | Throw e => Throw e
        | Normal s => Normal (VString s)
        end
  end.

(** A network that answers every call with the same response. *)
Definition always (r : Response) : Fetch := fun _ => Normal r.

(** A 200 response with a JSON body that parses to [v]. *)
Definition json_response (v : Value) : Response :=
  {| status := 200; statusText := "OK";
     content_type := Some "application/json; charset=utf-8";
     text := Normal (match JSON.stringify v with Some s => s | None => "" end);
     json := Normal v |}.

(** A 404 whose body reads [not found]. *)
Definition not_found_response : Response :=
  {| status := 404; statusText := "Not Found";
     content_type := Some "text/plain";
     text := Normal "not found";
     json := Throw (VError "SyntaxError" "Unexpected token 'o', is not valid JSON") |}.

(** The call [listWorkflows] makes. *)
Definition list_call (c : N8nClient) : FetchCall :=
  request_call c "/api/v1/workflows" no_options.

(** The object [selfTest] returns on success. *)
Definition selfTest_ok (workflowCount : Z) : Value :=
  VObject [("status", VString "ok");
           ("message", VString "Connection successful");
           ("details", VObject [("workflowCount", VNumber (NInt workflowCount))])].

(** The object [selfTest] returns from its [catch] block. *)
Definition selfTest_error (message : Value) (error : string) : Value :=
  VObject [("status", VString "error");
           ("message", message);
           ("details", VObject [("error", VString error)])].

(** A network whose [fetch] rejects with [e]. *)
Definition rejecting (e : Value) : Fetch := fun _ => Throw e.

(** The call [getNodeType] and [listNodeTypes] make. *)
Definition node_types_call (c : N8nClient) : FetchCall :=
  request_call c "/api/v1/node-types" no_options.

(** The words of the specification: the [name] field of [t] equals [name]
    exactly, as strings compare character by character. *)
Definition named (name : string) (t : Value) : Prop :=
  Get t "name" = Normal (VString name).

(** Three node types, two of them named [n8n-nodes-base.webhook]. *)
Definition sample_node_types : list Value :=
  [VObject [("name", VString "n8n-nodes-base.Webhook"); ("version", VNumber (NInt 1))];
   VObject [("name", VString "n8n-nodes-base.webhook"); ("version", VNumber (NInt 2))];
   VObject [("name", VString "n8n-nodes-base.webhook"); ("version", VNumber (NInt 3))]].

(** Every public method with its arguments. *)
Inductive MethodCall : Type :=
| GetInstanceInfo
| GetInstanceVersion
| ListWorkflows
| GetWorkflow (id : string)
| CreateWorkflow (data : Value)
| UpdateWorkflow (id : string) (data : Value)
| DeleteWorkflow (id : string)
| ExecuteWorkflow (id : string) (data : Value)
| GetExecutions (params : ExecutionsParams)
| GetExecution (id : string)
| StopExecution (id : string)
| ListTags
| CreateTag (data : Value)
| ListCredentials
| GetCredential (id : string)
| CreateCredential (data : Value)
| UpdateCredential (id : string) (data : Value)
| DeleteCredential (id : string)
| ListNodeTypes
| GetNodeType (name : string)
| ListVariables
| GetVariable (id : string)
| CreateVariable (data : Value)
| UpdateVariable (id : string) (data : Value)
| DeleteVariable (id : string)
| ActivateWorkflow (id : string)
| DeactivateWorkflow (id : string)
| TestConnection
| SelfTest.

(** Calling a method on a client. *)
Definition invoke (c : N8nClient) (m : MethodCall) : Async Value :=
  match m with
  | GetInstanceInfo => getInstanceInfo c
  | GetInstanceVersion => getInstanceVersion c
  | ListWorkflows => listWorkflows c
  | GetWorkflow id => getWorkflow c id
  | CreateWorkflow data => createWorkflow c data
  | UpdateWorkflow id data => updateWorkflow c id data
  | DeleteWorkflow id => deleteWorkflow c id
  | ExecuteWorkflow id data => executeWorkflow c id data
  | GetExecutions params => getExecutions c params
  | GetExecution id => getExecution c id
  | StopExecution id => stopExecution c id
  | ListTags => listTags c
  | CreateTag data => createTag c data
  | ListCredentials => listCredentials c
  | GetCredential id => getCredential c id
  | CreateCredential data => createCredential c data
  | UpdateCredential id data => updateCredential c id data
  | DeleteCredential id => deleteCredential c id
  | ListNodeTypes => listNodeTypes c
  | GetNodeType name => getNodeType c name
  | ListVariables => listVariables c
  | GetVariable id => getVariable c id
  | CreateVariable data => createVariable c data
  | UpdateVariable id data => updateVariable c id data
  | DeleteVariable id => deleteVariable c id
  | ActivateWorkflow id => activateWorkflow c id
  | DeactivateWorkflow id => deactivateWorkflow c id
  | TestConnection => b <- testConnection c ;; ret (VBool b)
  | SelfTest => selfTest c
  end.

(** The URLs a computation requests, in order. *)
Definition urls {A : Type} (m : Async A) (net : Fetch) : list string :=
  map url (calls m net).

(** The last character of a string, if it has one. *)
Fixpoint last_char (s : string) : option ascii :=
  match s with
  | EmptyString => None
  | String c EmptyString => Some c
  | String _ rest => last_char rest
  end.

(** RFC 3986: [segment = *pchar], where a [pchar] is an unreserved
    character (letter, digit, [-._~]), a sub-delimiter, [:], [@] or an escape
    [%XX] of two hexadecimal digits.  The delimiters [/], [?] and [#] are no
    [pchar]. *)
Definition pchar (c : ascii) : bool :=
  Str.is_alnum c || Str.mem c "-._~" || Str.mem c "!$&'()*+,;=" || Str.mem c ":@".

Fixpoint well_formed_segment (s : string) : bool :=
  match s with
  | EmptyString => true
  | String c rest =>
      if Ascii.eqb c "%" then
        match rest with
        | String h (String l rest') =>
            Str.is_hexdig h && Str.is_hexdig l && well_formed_segment rest'
        | _ => false
        end
      else pchar c && well_formed_segment rest
  end.

(** The characters an encoded id is made of. *)
Definition segment_char (c : ascii) : bool :=
  uri_unreserved c || Ascii.eqb c "%".

(** The text [{"active":true}] or [{"active":false}]. *)
Definition active_body (active : bool) : string :=
  "{" ++ String Str.dquote "active" ++ String Str.dquote ":"
      ++ (if active then "true" else "false") ++ "}".

(** The one request [updateWorkflow(id, {active})] sends. *)
Definition activation_call (c : N8nClient) (id : string) (active : bool) : FetchCall :=
  {| url := baseUrl c ++ "/api/v1/workflows/" ++ encodeURIComponent id;
     init := {| method := Some "PATCH";
                headers := Some [("Content-Type", "application/json");
                                 ("Accept", "application/json");
                                 ("X-N8N-API-KEY", apiKey c)];
                body := Some (active_body active) |} |}.

(* ================================================================== *)
(** ** Vocabulary of the further properties *)
(* ================================================================== *)

(** The value a string-valued record holds for key [k]. *)
Fixpoint assoc (k : string) (o : list (string * string)) : option string :=
  match o with
  | [] => None
  | (k', v) :: rest => if String.eqb k' k then Some v else assoc k rest
  end.

(** The headers of a request whose caller supplies none. *)
Definition default_headers (c : N8nClient) : list (string * string) :=
  [("Content-Type", "application/json");
   ("Accept", "application/json");
   ("X-N8N-API-KEY", apiKey c)].

(** The path each public method hands to [request]. *)
Definition path_of (m : MethodCall) : string :=
  match m with
  | GetInstanceInfo => "/api/v1/health"
  | GetInstanceVersion => "/api/v1/settings"
  | ListWorkflows | CreateWorkflow _ | TestConnection | SelfTest => "/api/v1/workflows"
  | GetWorkflow id | UpdateWorkflow id _ | DeleteWorkflow id
  | ActivateWorkflow id | DeactivateWorkflow id =>
      "/api/v1/workflows/" ++ encodeURIComponent id
  | ExecuteWorkflow id _ => "/api/v1/workflows/" ++ encodeURIComponent id ++ "/execute"
  | GetExecutions params => "/api/v1/executions" ++ executions_suffix params
  | GetExecution id | StopExecution id => "/api/v1/executions/" ++ encodeURIComponent id
  | ListTags | CreateTag _ => "/api/v1/tags"
  | ListCredentials | CreateCredential _ => "/api/v1/credentials"
  | GetCredential id | UpdateCredential id _ | DeleteCredential id =>
      "/api/v1/credentials/" ++ encodeURIComponent id
  | ListNodeTypes | GetNodeType _ => "/api/v1/node-types"
  | ListVariables | CreateVariable _ => "/api/v1/variables"
  | GetVariable id | UpdateVariable id _ | DeleteVariable id =>
      "/api/v1/variables/" ++ encodeURIComponent id
  end.

(** The options each public method hands to [request]. *)
Definition options_of (m : MethodCall) : RequestInit :=
  match m with
  | CreateWorkflow data | CreateTag data | CreateCredential data | CreateVariable data =>
      with_body "POST" data
  | UpdateWorkflow _ data | UpdateCredential _ data | UpdateVariable _ data =>
      with_body "PATCH" data
  | DeleteWorkflow _ | DeleteCredential _ | DeleteVariable _ => without_body "DELETE"
  | ExecuteWorkflow _ data =>
      with_body "POST"
        (VObject [("data", match data with VUndefined => VObject [] | _ => data end)])
  | StopExecution _ => with_body "POST" (VObject [("stop", VBool true)])
  | ActivateWorkflow _ => with_body "PATCH" (VObject [("active", VBool true)])
  | DeactivateWorkflow _ => with_body "PATCH" (VObject [("active", VBool false)])
  | _ => no_options
  end.

(** The two helpers that turn a failure into a result. *)
Definition is_diagnostic (m : MethodCall) : bool :=
  match m with
  | TestConnection | SelfTest => true
  | _ => false
  end.

(** The value of a hexadecimal digit. *)
Definition hex_value (c : ascii) : option N :=
  let n := N_of_ascii c in
  if Str.is_digit c then Some (n - 48)%N
  else if ((65 <=? n) && (n <=? 70))%N then Some (n - 55)%N
  else if ((97 <=? n) && (n <=? 102))%N then Some (n - 87)%N
  else None.

(** Percent-decoding, byte by byte: [%XX] gives the byte [XX], any other
    character stands for itself, a [%] without two hexadecimal digits after
    it is an error. *)
Fixpoint percent_decode (s : string) : option string :=
  match s with
  | EmptyString => Some ""
  | String c rest =>
      if Ascii.eqb c "%" then
        match rest with
        | String h (String l rest') =>
            match hex_value h, hex_value l, percent_decode rest' with
            | Some x, Some y, Some d => Some (String (ascii_of_N (16 * x + y)) d)
            | _, _, _ => None
            end
        | _ => None
        end
      else
        match percent_decode rest with
        | Some d => Some (String c d)
        | None => None
        end
  end.

(** What a call shows besides its headers. *)
Definition call_shape (call : FetchCall) : string * string * option string :=
  (url call, http_method call, body (init call)).

(* ================================================================== *)
(** * Properties *)
(* ================================================================== *)

(** ** Strings *)

Lemma prefix_nil (s : string) : String.prefix "" s = true.
Proof. destruct s; reflexivity. Qed.

Lemma prefix_app (s rest : string) : String.prefix s (s ++ rest) = true.
Proof.
  induction s as [|a s IH]; simpl; [apply prefix_nil|].
  destruct (ascii_dec a a) as [_|ne]; [exact IH | contradiction].
Qed.

Lemma includes_here (s rest : string) : Str.includes s (s ++ rest) = true.
Proof.
  destruct (s ++ rest) eqn:E.
  - destruct s; [reflexivity | discriminate].
  - cbn [Str.includes]. rewrite <- E, prefix_app. reflexivity.
Qed.

Lemma includes_skip (s before hay : string) :
  Str.includes s hay = true -> Str.includes s (before ++ hay) = true.
Proof.
  intros H. induction before as [|a before IH]; [exact H|].
  change (String a before ++ hay) with (String a (before ++ hay)).
  cbn [Str.includes]. rewrite IH. apply orb_true_r.
Qed.

(** A string occurs in whatever is written around it. *)
Lemma includes_middle (s before rest : string) :
  Str.includes s (before ++ s ++ rest) = true.
Proof. apply includes_skip, includes_here. Qed.

Lemma app_empty (s : string) : s ++ "" = s.
Proof. induction s as [|a s IH]; simpl; [reflexivity | now rewrite IH]. Qed.

Lemma includes_self (s : string) : Str.includes s s = true.
Proof. rewrite <- (app_empty s) at 2. apply includes_here. Qed.

Lemma includes_empty (s : string) : Str.includes "" s = true.
Proof. destruct s; reflexivity. Qed.

Lemma string_app_assoc (a b c : string) : (a ++ b) ++ c = a ++ b ++ c.
Proof. induction a as [|x a IH]; simpl; [reflexivity | now rewrite IH]. Qed.

Lemma all_app (p : ascii -> bool) (a b : string) :
  Str.all p (a ++ b) = Str.all p a && Str.all p b.
Proof.
  induction a as [|x a IH]; simpl; [reflexivity|].
  rewrite IH. apply andb_assoc.
Qed.

Lemma all_replicate (p : ascii -> bool) (c : ascii) (n : nat) :
  p c = true -> Str.all p (Str.replicate n c) = true.
Proof. intros H. induction n as [|n IH]; simpl; [reflexivity | now rewrite H, IH]. Qed.

(** ** The request primitive *)

(** [request] makes exactly one call to [fetch] and completes as
    [request_outcome] says. *)
Lemma request_run (c : N8nClient) (path : string) (options : RequestInit) (net : Fetch) :
  request c path options net =
  ([request_call c path options], request_outcome (net (request_call c path options))).
Proof.
  unfold request, bind, fetch, throw, await, ret, request_outcome.
  destruct (net (request_call c path options)) as [r|e]; [|reflexivity].
  destruct (negb (ok r)); [reflexivity|].
  destruct (Str.includes "application/json" (string_or (content_type r) "")).
  - destruct (json r) as [j|e]; [|reflexivity].
    destruct (Get j "data") as [d|e]; reflexivity.
  - destruct (text r) as [s|e]; reflexivity.
Qed.

Lemma request_calls (c : N8nClient) (path : string) (options : RequestInit) (net : Fetch) :
  calls (request c path options) net = [request_call c path options].
Proof. unfold calls. now rewrite request_run. Qed.

Lemma request_completion (c : N8nClient) (path : string) (options : RequestInit) (net : Fetch) :
  completion (request c path options) net =
  request_outcome (net (request_call c path options)).
Proof. unfold completion. now rewrite request_run. Qed.

(** On a success response announced as JSON, a truthy [data] member is what
    [request] returns. *)
Lemma request_unwraps_truthy_data
  (c : N8nClient) (path : string) (options : RequestInit) (net : Fetch)
  (r : Response) (j d : Value) :
  net (request_call c path options) = Normal r ->
  ok r = true ->
  Str.includes "application/json" (string_or (content_type r) "") = true ->
  json r = Normal j ->
  Get j "data" = Normal d ->
  ToBoolean d = true ->
  completion (request c path options) net = Normal d.
Proof.
  intros Hnet Hok Hct Hj Hd Ht.
  rewrite request_completion, Hnet. unfold request_outcome, js_or.
  now rewrite Hok, Hct, Hj, Hd, Ht.
Qed.

(** A null or undefined [data] member, or none, leaves the parsed body. *)
Lemma request_keeps_body_without_data
  (c : N8nClient) (path : string) (options : RequestInit) (net : Fetch)
  (r : Response) (j d : Value) :
  net (request_call c path options) = Normal r ->
  ok r = true ->
  Str.includes "application/json" (string_or (content_type r) "") = true ->
  json r = Normal j ->
  Get j "data" = Normal d ->
  is_nullish d = true ->
  completion (request c path options) net = Normal j.
Proof.
  intros Hnet Hok Hct Hj Hd Hn.
  rewrite request_completion, Hnet. unfold request_outcome, js_or.
  rewrite Hok, Hct, Hj, Hd. destruct d; try discriminate; reflexivity.
Qed.

Example request_data_array (c : N8nClient) (path : string) (options : RequestInit) :
  let one_two_three := VArray [VNumber (NInt 1); VNumber (NInt 2); VNumber (NInt 3)] in
  completion (request c path options)
             (always (json_response (VObject [("data", one_two_three)])))
  = Normal one_two_three.
Proof. intros. now rewrite request_completion. Qed.

Example request_no_data (c : N8nClient) (path : string) (options : RequestInit) :
  let body := VObject [("id", VNumber (NInt 5))] in
  completion (request c path options) (always (json_response body)) = Normal body.
Proof. intros. now rewrite request_completion. Qed.

(** A [data] member that is the empty string or [false] is not returned:
    the parsed body is. *)
Example request_falsy_data_others (c : N8nClient) (path : string) (options : RequestInit) :
  completion (request c path options)
             (always (json_response (VObject [("data", VString "")])))
  = Normal (VObject [("data", VString "")]) /\
  completion (request c path options)
             (always (json_response (VObject [("data", VBool false)])))
  = Normal (VObject [("data", VBool false)]).
Proof. now rewrite !request_completion. Qed.

(** A body that is the JSON text [null] has no members to read. *)
Example request_null_body (c : N8nClient) (path : string) (options : RequestInit) :
  completion (request c path options) (always (json_response VNull))
  = Throw (TypeError "Cannot read properties of null (reading 'data')").
Proof. now rewrite request_completion. Qed.

(** C1, at the response body [{"data": 0}]: [json.data || json] tests the
    truthiness of the [data] member, so a member that is present but falsy is
    not returned; the whole parsed body is. *)
Theorem request_falsy_data_returns_body :
  let c := constructor "http://x" "key" in
  let body := VObject [("data", VNumber (NInt 0))] in
  Get body "data" = Normal (VNumber (NInt 0)) /\
  is_nullish (VNumber (NInt 0)) = false /\
  completion (request c "/api/v1/workflows" no_options) (always (json_response body))
  = Normal body /\
  completion (request c "/api/v1/workflows" no_options) (always (json_response body))
  <> Normal (VNumber (NInt 0)).
Proof.
  cbv zeta. rewrite request_completion.
  repeat split; try reflexivity. discriminate.
Qed.

(** C2: a response whose status is outside 200-299 makes the call fail with
    an [Error] whose message holds the decimal status code, the status text
    and the text of the body as it was read; when reading the body fails the
    empty string stands for it and the call still fails with that [Error]
    alone. *)
Theorem request_fails_on_error_status
  (c : N8nClient) (path : string) (options : RequestInit) (net : Fetch) (r : Response) :
  net (request_call c path options) = Normal r ->
  ok r = false ->
  let body_text := match text r with Normal t => t | Throw _ => "" end in
  let message :=
    "n8n API error " ++ Str.of_Z (Z.of_N (status r)) ++ " " ++ statusText r
      ++ ": " ++ body_text in
  completion (request c path options) net = Throw (new_Error message) /\
  Get (new_Error message) "message" = Normal (VString message) /\
  Str.includes (Str.of_Z (Z.of_N (status r))) message = true /\
  Str.includes (statusText r) message = true /\
  Str.includes body_text message = true.
Proof.
  intros Hnet Hok body_text message.
  split; [|split; [reflexivity|]].
  - rewrite request_completion, Hnet. unfold request_outcome. rewrite Hok. cbn [negb].
    unfold api_error_message, catch_with, message, body_text, Number_toString.
    reflexivity.
  - repeat split.
    + apply includes_middle.
    + replace message with
        (("n8n API error " ++ Str.of_Z (Z.of_N (status r)) ++ " ")
           ++ statusText r ++ ": " ++ body_text)
        by (unfold message; now rewrite !string_app_assoc).
      apply includes_middle.
    + replace message with
        (("n8n API error " ++ Str.of_Z (Z.of_N (status r)) ++ " " ++ statusText r ++ ": ")
           ++ body_text ++ "")
        by (unfold message; now rewrite !string_app_assoc, app_empty).
      apply includes_middle.
Qed.

Lemma request_fails_on_error_status_witness :
  let c := constructor "http://x/" "key" in
  completion (request c "/api/v1/workflows/7" no_options) (always not_found_response)
  = Throw (new_Error "n8n API error 404 Not Found: not found") /\
  Str.includes "404" "n8n API error 404 Not Found: not found" = true /\
  Str.includes "not found" "n8n API error 404 Not Found: not found" = true.
Proof.
  intros c.
  destruct (request_fails_on_error_status c "/api/v1/workflows/7" no_options
              (always not_found_response) not_found_response eq_refl eq_refl)
    as (Hthrow & _ & Hstatus & _ & Hbody).
  exact (conj Hthrow (conj Hstatus Hbody)).
Defined.

(** An error body that cannot be read: the message ends after the colon. *)
Example request_error_body_unreadable (c : N8nClient) :
  completion (request c "/api/v1/tags" no_options)
    (always {| status := 502; statusText := "Bad Gateway"; content_type := None;
               text := Throw (TypeError "terminated");
               json := Throw (TypeError "terminated") |})
  = Throw (new_Error "n8n API error 502 Bad Gateway: ").
Proof. now rewrite request_completion. Qed.

(** ** The diagnostic helpers *)

Lemma listWorkflows_run (c : N8nClient) (net : Fetch) :
  listWorkflows c net = ([list_call c], request_outcome (net (list_call c))).
Proof. apply request_run. Qed.

Lemma selfTest_run (c : N8nClient) (net : Fetch) :
  selfTest c net =
  ([list_call c],
   match completion (listWorkflows c) net with
   | Normal workflows =>
       Normal (selfTest_ok (if Array_isArray workflows
                            then array_length workflows else 0))
   | Throw error =>
       match Get error "message" with
       | Throw e => Throw e
       | Normal message =>
           match ToString error with
           | Throw e => Throw e
           | Normal str =>
               Normal (selfTest_error (js_or message (VString "Connection failed")) str)
           end
       end
   end).
Proof.
  unfold selfTest, try_catch, bind, completion. rewrite listWorkflows_run. cbn [snd].
  destruct (request_outcome (net (list_call c))) as [w|error]; [reflexivity|].
  unfold await, ret.
  destruct (Get error "message") as [m|e]; [|reflexivity].
  destruct (ToString error) as [str|e]; reflexivity.
Qed.

(** When the list call succeeds, [selfTest] reports [ok] with the length of
    the array it got, and 0 for anything that is not an array. *)
Lemma selfTest_on_success (c : N8nClient) (net : Fetch) (workflows : Value) :
  completion (listWorkflows c) net = Normal workflows ->
  completion (selfTest c) net =
  Normal (selfTest_ok (match workflows with
                       | VArray elems => Z.of_nat (List.length elems)
                       | _ => 0
                       end)).
Proof.
  intros H. unfold completion at 1. rewrite selfTest_run, H. cbn [snd].
  destruct workflows; reflexivity.
Qed.

Example selfTest_empty_list (c : N8nClient) :
  completion (selfTest c) (always (json_response (VArray []))) = Normal (selfTest_ok 0).
Proof.
  apply (selfTest_on_success c _ (VArray [])).
  unfold completion. now rewrite listWorkflows_run.
Qed.

(** When the list call fails with an [Error] object, [selfTest] reports
    [error] with the error's message (or [Connection failed] when that is
    empty) and its string form, which holds the message. *)
Lemma selfTest_on_Error (c : N8nClient) (net : Fetch) (name message : string) :
  completion (listWorkflows c) net = Throw (VError name message) ->
  exists str,
    ToString (VError name message) = Normal str /\
    Str.includes message str = true /\
    completion (selfTest c) net =
    Normal (selfTest_error
              (if String.eqb message "" then VString "Connection failed"
               else VString message)
              str).
Proof.
  intros H. eexists. split; [reflexivity|]. split.
  - cbn [ToString] in *. destruct (String.eqb name ""); [apply includes_self|].
    destruct (String.eqb message "") eqn:E.
    + apply String.eqb_eq in E. subst message. apply includes_empty.
    + do 2 apply includes_skip. apply includes_self.
  - unfold completion at 1. rewrite selfTest_run, H. cbn [snd].
    change (Get (VError name message) "message") with (Normal (VString message)).
    cbn [ToString]. unfold js_or, ToBoolean.
    destruct (String.eqb message ""); reflexivity.
Qed.

(** In general: a failure that is neither [undefined] nor [null] and that
    [String] can convert is reported, with its [message] member when that is
    truthy. *)
Lemma selfTest_on_failure (c : N8nClient) (net : Fetch) (error : Value) (str : string) :
  completion (listWorkflows c) net = Throw error ->
  is_nullish error = false ->
  ToString error = Normal str ->
  exists message,
    Get error "message" = Normal message /\
    completion (selfTest c) net =
    Normal (selfTest_error (js_or message (VString "Connection failed")) str).
Proof.
  intros H Hnn Hstr.
  assert (Hget : exists m, Get error "message" = Normal m).
  { destruct error; try discriminate; cbn [Get]; try (eexists; reflexivity).
    destruct (lookup "message" props); eexists; reflexivity. }
  destruct Hget as [m Hm]. exists m. split; [exact Hm|].
  unfold completion at 1. now rewrite selfTest_run, H, Hm, Hstr.
Qed.

(** A thrown string is reported too: it has no message of its own. *)
Lemma selfTest_on_thrown_string (c : N8nClient) (net : Fetch) (s : string) :
  completion (listWorkflows c) net = Throw (VString s) ->
  completion (selfTest c) net =
  Normal (selfTest_error (VString "Connection failed") s).
Proof.
  intros H. unfold completion at 1. now rewrite selfTest_run, H.
Qed.

(** C3, at a list call that fails with [undefined]: the [catch] block reads
    [error.message] first, which throws for [undefined] (and for [null]), so
    [selfTest] itself fails with a [TypeError] and returns no status
    object. *)
Theorem selfTest_throws_on_undefined :
  let c := constructor "http://x" "key" in
  completion (listWorkflows c) (rejecting VUndefined) = Throw VUndefined /\
  completion (selfTest c) (rejecting VUndefined)
  = Throw (TypeError "Cannot read properties of undefined (reading 'message')") /\
  (forall v, completion (selfTest c) (rejecting VUndefined) <> Normal v).
Proof.
  cbv zeta. unfold completion. rewrite selfTest_run, listWorkflows_run.
  repeat split. intros v. discriminate.
Qed.

(** [testConnection] makes the one call of [listWorkflows] and never throws:
    it completes with [true] when the list call completed, [false] when it
    threw. *)
Lemma testConnection_run (c : N8nClient) (net : Fetch) :
  testConnection c net =
  ([list_call c],
   Normal (match completion (listWorkflows c) net with
           | Normal _ => true
           | Throw _ => false
           end)).
Proof.
  unfold testConnection, try_catch, bind, completion, ret.
  rewrite listWorkflows_run. cbn [snd].
  destruct (request_outcome (net (list_call c))); reflexivity.
Qed.

(** C5: whatever the network does, [testConnection] completes normally, with
    [true] exactly when [listWorkflows] completes normally - whatever value it
    completes with - and [false] when it throws, whatever it throws. *)
Theorem testConnection_never_throws (c : N8nClient) (net : Fetch) :
  completion (testConnection c) net =
  Normal (match completion (listWorkflows c) net with
          | Normal payload => true
          | Throw failure => false
          end).
Proof. unfold completion at 1. now rewrite testConnection_run. Qed.

Example testConnection_any_payload (c : N8nClient) (payload : Value) :
  completion (testConnection c) (always (json_response (VObject [("data", payload)])))
  = Normal true.
Proof.
  unfold completion. rewrite testConnection_run. cbn [snd]. unfold completion.
  rewrite listWorkflows_run. reflexivity.
Qed.

Example testConnection_unreachable (c : N8nClient) (e : Value) :
  completion (testConnection c) (rejecting e) = Normal false.
Proof.
  unfold completion. rewrite testConnection_run. cbn [snd]. unfold completion.
  now rewrite listWorkflows_run.
Qed.

Example testConnection_server_error (c : N8nClient) :
  completion (testConnection c) (always not_found_response) = Normal false.
Proof.
  unfold completion. rewrite testConnection_run. cbn [snd]. unfold completion.
  now rewrite listWorkflows_run.
Qed.

(** ** [getNodeType] *)

Lemma getNodeType_run (c : N8nClient) (name : string) (net : Fetch) :
  getNodeType c name net =
  ([node_types_call c],
   match completion (listNodeTypes c) net with
   | Normal types => call_find types name
   | Throw e => Throw e
   end).
Proof.
  unfold getNodeType, listNodeTypes, bind, await, completion.
  rewrite request_run. cbn [snd]. fold (node_types_call c).
  destruct (request_outcome (net (node_types_call c))) as [types|e]; [|reflexivity].
  destruct (call_find types name); reflexivity.
Qed.

Lemma strict_eq_string_iff (v : Value) (s : string) :
  strict_eq_string v s = true <-> v = VString s.
Proof.
  destruct v; simpl; split; try discriminate.
  - intros H. apply String.eqb_eq in H. now subst.
  - intros H. injection H as ->. apply String.eqb_refl.
Qed.

(** [find] on a list without [null] and [undefined] elements: the first
    element that is [named name], or [undefined] when there is none. *)
Lemma find_by_name_first (name : string) (types : list Value) :
  Forall (fun t => is_nullish t = false) types ->
  (exists before t after,
      types = (before ++ t :: after)%list /\
      named name t /\
      Forall (fun x => ~ named name x) before /\
      find_by_name name types = Normal t)
  \/
  (Forall (fun x => ~ named name x) types /\
   find_by_name name types = Normal VUndefined).
Proof.
  induction 1 as [|t rest Ht Hrest IH].
  - right. split; [constructor | reflexivity].
  - assert (Hget : exists n, Get t "name" = Normal n).
    { destruct t; try discriminate; cbn [Get];
        try (eexists; reflexivity).
      destruct (lookup "name" props); eexists; reflexivity. }
    destruct Hget as [n Hn]. cbn [find_by_name]. rewrite Hn.
    destruct (strict_eq_string n name) eqn:E.
    + left. exists [], t, rest. apply strict_eq_string_iff in E. subst n.
      repeat split; [exact Hn | constructor].
    + assert (Hno : ~ named name t).
      { unfold named. rewrite Hn. intros Heq. injection Heq as ->.
        assert (strict_eq_string (VString name) name = true)
          by now apply strict_eq_string_iff.
        congruence. }
      destruct IH as [(before & t' & after & -> & Hnamed & Hbefore & Hfind) | [Hnone Hfind]].
      * left. exists (t :: before), t', after.
        repeat split; [exact Hnamed | now constructor | exact Hfind].
      * right. split; [now constructor | exact Hfind].
Qed.

(** C4: when the node-type list arrives as an array of node-type descriptors
    (no element of it is [null] or [undefined]), [getNodeType(name)]
    completes with the first element whose [name] is exactly [name], and with
    [undefined] when no element has that name. *)
Theorem getNodeType_first_match
  (c : N8nClient) (name : string) (net : Fetch) (types : list Value) :
  completion (listNodeTypes c) net = Normal (VArray types) ->
  Forall (fun t => is_nullish t = false) types ->
  (exists before t after,
      types = (before ++ t :: after)%list /\
      named name t /\
      Forall (fun x => ~ named name x) before /\
      completion (getNodeType c name) net = Normal t)
  \/
  (Forall (fun x => ~ named name x) types /\
   completion (getNodeType c name) net = Normal VUndefined).
Proof.
  intros Hlist Hobjects.
  assert (Hrun : completion (getNodeType c name) net = find_by_name name types).
  { unfold completion at 1. rewrite getNodeType_run, Hlist. reflexivity. }
  rewrite Hrun. apply find_by_name_first, Hobjects.
Qed.

Example getNodeType_sample (c : N8nClient) :
  completion (getNodeType c "n8n-nodes-base.webhook")
             (always (json_response (VObject [("data", VArray sample_node_types)])))
  = Normal (VObject [("name", VString "n8n-nodes-base.webhook");
                     ("version", VNumber (NInt 2))]) /\
  completion (getNodeType c "n8n-nodes-base.WEBHOOK")
             (always (json_response (VObject [("data", VArray sample_node_types)])))
  = Normal VUndefined.
Proof. unfold completion. rewrite !getNodeType_run. split; reflexivity. Qed.

Lemma getNodeType_first_match_witness :
  let c := constructor "http://x" "key" in
  let net := always (json_response (VArray sample_node_types)) in
  (exists before t after,
      sample_node_types = (before ++ t :: after)%list /\
      named "n8n-nodes-base.webhook" t /\
      Forall (fun x => ~ named "n8n-nodes-base.webhook" x) before /\
      completion (getNodeType c "n8n-nodes-base.webhook") net = Normal t)
  \/
  (Forall (fun x => ~ named "n8n-nodes-base.webhook" x) sample_node_types /\
   completion (getNodeType c "n8n-nodes-base.webhook") net = Normal VUndefined).
Proof.
  intros c net.
  apply (getNodeType_first_match c "n8n-nodes-base.webhook" net sample_node_types).
  - reflexivity.
  - repeat constructor.
Defined.

(** An array that holds [null] is not a list of node types: [t.name] throws
    on it before a later match is reached. *)
Example getNodeType_null_element (c : N8nClient) :
  completion (getNodeType c "b")
             (always (json_response (VArray [VNull; VObject [("name", VString "b")]])))
  = Throw (TypeError "Cannot read properties of null (reading 'name')").
Proof. unfold completion. now rewrite getNodeType_run. Qed.

(** ** Request URLs *)

Lemma replace_trailing_slashes_only (n : nat) :
  replace_trailing_slashes (Str.replicate n "/") = "".
Proof.
  destruct n as [|n]; [reflexivity|].
  cbn [Str.replicate replace_trailing_slashes].
  rewrite all_replicate by reflexivity. reflexivity.
Qed.

(** Slashes written after a base URL go with the slashes it ends in. *)
Lemma replace_trailing_slashes_app (s : string) (n : nat) :
  replace_trailing_slashes (s ++ Str.replicate n "/") = replace_trailing_slashes s.
Proof.
  induction s as [|a s IH].
  - apply replace_trailing_slashes_only.
  - change (String a s ++ Str.replicate n "/") with (String a (s ++ Str.replicate n "/")).
    cbn [replace_trailing_slashes].
    rewrite all_app, all_replicate, andb_true_r by reflexivity.
    now rewrite IH.
Qed.

Lemma replace_trailing_slashes_empty (s : string) :
  replace_trailing_slashes s = "" -> Str.all (Ascii.eqb "/") s = true.
Proof.
  destruct s as [|a s]; [reflexivity|].
  cbn [replace_trailing_slashes Str.all]. rewrite (Ascii.eqb_sym "/" a).
  destruct (Ascii.eqb a "/" && Str.all (Ascii.eqb "/") s); [reflexivity | discriminate].
Qed.

(** What the constructor keeps ends in no slash, so [baseUrl + path] has no
    double slash where the two meet. *)
Lemma replace_trailing_slashes_last (s : string) :
  last_char (replace_trailing_slashes s) <> Some "/"%char.
Proof.
  induction s as [|a s IH]; [discriminate|].
  cbn [replace_trailing_slashes].
  destruct (Ascii.eqb a "/" && Str.all (Ascii.eqb "/") s) eqn:E; [discriminate|].
  cbn [last_char]. destruct (replace_trailing_slashes s) eqn:Er; [|exact IH].
  intros H. injection H as ->.
  rewrite (replace_trailing_slashes_empty s Er) in E. discriminate.
Qed.

(** C6: a client built from [s] followed by one or more [/] is the client
    built from [s]: whatever method is called, with whatever arguments, both
    request the same URLs (and send the same requests); built from
    [http://x/] or from [http://x], [listWorkflows()] requests
    [http://x/api/v1/workflows]. *)
Theorem trailing_slashes_same_urls
  (s apiKey : string) (n : nat) (m : MethodCall) (net : Fetch) :
  urls (invoke (constructor (s ++ Str.replicate (S n) "/") apiKey) m) net
  = urls (invoke (constructor s apiKey) m) net
  /\
  calls (invoke (constructor (s ++ Str.replicate (S n) "/") apiKey) m) net
  = calls (invoke (constructor s apiKey) m) net
  /\
  urls (listWorkflows (constructor "http://x/" apiKey)) net = ["http://x/api/v1/workflows"]
  /\
  urls (listWorkflows (constructor "http://x" apiKey)) net = ["http://x/api/v1/workflows"].
Proof.
  assert (Hsame : constructor (s ++ Str.replicate (S n) "/") apiKey = constructor s apiKey).
  { unfold constructor. now rewrite replace_trailing_slashes_app. }
  rewrite Hsame. repeat split; unfold urls, listWorkflows; now rewrite request_calls.
Qed.

Example trailing_slashes_many (apiKey : string) (net : Fetch) :
  urls (getWorkflow (constructor "https://n8n.example.com/base///" apiKey) "12") net
  = ["https://n8n.example.com/base/api/v1/workflows/12"].
Proof. unfold urls, getWorkflow. now rewrite request_calls. Qed.

(** ** [getExecutions] *)

(** The pairs [getExecutions] puts in the query: one for each parameter that
    is given, [limit] before [lastId]. *)
Lemma executions_query_pairs (params : ExecutionsParams) :
  executions_query params =
  (match limit params with
   | Some n => [("limit", Number_toString n)]
   | None => []
   end ++
   match lastId params with
   | Some s => [("lastId", s)]
   | None => []
   end)%list.
Proof.
  unfold executions_query. destruct (limit params), (lastId params); reflexivity.
Qed.

(** C7: [getExecutions({limit: 10, lastId: "abc"})] requests the path
    [/api/v1/executions?limit=10&lastId=abc]; [getExecutions({})], which is
    also what a call without argument runs, requests [/api/v1/executions]. *)
Theorem getExecutions_paths (c : N8nClient) (net : Fetch) :
  let both := {| limit := Some (NInt 10); lastId := Some "abc" |} in
  getExecutions c both = request c "/api/v1/executions?limit=10&lastId=abc" no_options /\
  urls (getExecutions c both) net = [baseUrl c ++ "/api/v1/executions?limit=10&lastId=abc"] /\
  executions_suffix no_params = "" /\
  getExecutions c no_params = request c "/api/v1/executions" no_options /\
  urls (getExecutions c no_params) net = [baseUrl c ++ "/api/v1/executions"].
Proof.
  cbv zeta. repeat split; unfold urls, getExecutions; now rewrite request_calls.
Qed.

(** C10: the query holds a pair for [limit] exactly when [limit] is given
    and one for [lastId] exactly when [lastId] is given, whatever the value:
    [0] and the empty string are sent like any other.  So
    [getExecutions({limit: 0})] has the query string [?limit=0] and
    [getExecutions({lastId: ""})] has [?lastId=]. *)
Theorem getExecutions_omits_only_missing (params : ExecutionsParams) :
  (forall value, In ("limit", value) (executions_query params)
                 <-> exists n, limit params = Some n /\ value = Number_toString n) /\
  (forall value, In ("lastId", value) (executions_query params)
                 <-> lastId params = Some value) /\
  (executions_suffix params = ""
   <-> limit params = None /\ lastId params = None) /\
  executions_suffix {| limit := Some (NInt 0); lastId := None |} = "?limit=0" /\
  executions_suffix {| limit := None; lastId := Some "" |} = "?lastId=" /\
  executions_suffix {| limit := Some NNegZero; lastId := None |} = "?limit=0" /\
  executions_suffix {| limit := Some NNaN; lastId := None |} = "?limit=NaN" /\
  executions_suffix {| limit := Some (NInt 0); lastId := Some "" |} = "?limit=0&lastId=".
Proof.
  split; [|split; [|split; [|repeat split]]].
  - intros value. rewrite executions_query_pairs.
    destruct (limit params) as [n|], (lastId params) as [s|]; cbn [app In]; split.
    all: try (intros [H|[H|[]]]; inversion H; subst; eexists; split; reflexivity).
    all: try (intros [H|[]]; inversion H; subst; eexists; split; reflexivity).
    all: try (intros [m [H ->]]; injection H as ->; left; reflexivity).
    all: try (intros [m [H _]]; discriminate).
    all: try (intros []).
  - intros value. rewrite executions_query_pairs.
    destruct (limit params) as [n|], (lastId params) as [s|]; cbn [app In]; split.
    all: try (intros [H|[H|[]]]; inversion H; subst; reflexivity).
    all: try (intros [H|[]]; inversion H; subst; reflexivity).
    all: try (intros H; injection H as ->; auto).
    all: try discriminate.
    all: try (intros []).
  - unfold executions_suffix. rewrite executions_query_pairs.
    destruct (limit params) as [n|], (lastId params) as [s|];
      cbn [app URLSearchParams.toString map Str.join fst snd].
    all: split; try (intros [H1 H2]; discriminate); try (intros; split; reflexivity).
    all: try reflexivity.
    all: cbn [URLSearchParams.form_encode Ascii.eqb Bool.eqb
              URLSearchParams.form_safe]; intros H.
    all: exfalso; revert H.
    all: match goal with
         | |- context [negb (String.eqb ?q "")] =>
             replace (negb (String.eqb q "")) with true by reflexivity
         end; discriminate.
Qed.

(** ** Percent-encoded path segments *)

Lemma percent_byte_well_formed (c : ascii) (rest : string) :
  well_formed_segment (Str.percent_byte c ++ rest) = well_formed_segment rest.
Proof.
  destruct c as [[] [] [] [] [] [] [] []]; reflexivity.
Qed.

Lemma percent_byte_chars (c : ascii) :
  Str.all segment_char (Str.percent_byte c) = true.
Proof.
  destruct c as [[] [] [] [] [] [] [] []]; reflexivity.
Qed.

Lemma unreserved_pchar (c : ascii) :
  uri_unreserved c = true -> Ascii.eqb c "%" = false /\ pchar c = true.
Proof.
  destruct c as [[] [] [] [] [] [] [] []]; try (split; reflexivity); discriminate.
Qed.

Lemma encodeURIComponent_well_formed (id : string) :
  well_formed_segment (encodeURIComponent id) = true.
Proof.
  induction id as [|c id IH]; [reflexivity|].
  cbn [encodeURIComponent]. destruct (uri_unreserved c) eqn:E.
  - change (String c "" ++ encodeURIComponent id) with (String c (encodeURIComponent id)).
    cbn [well_formed_segment].
    destruct (unreserved_pchar c E) as [-> ->]. exact IH.
  - now rewrite percent_byte_well_formed.
Qed.

Lemma encodeURIComponent_chars (id : string) :
  Str.all segment_char (encodeURIComponent id) = true.
Proof.
  induction id as [|c id IH]; [reflexivity|].
  cbn [encodeURIComponent]. rewrite all_app, IH, andb_true_r.
  destruct (uri_unreserved c) eqn:E; [|apply percent_byte_chars].
  cbn [Str.all]. unfold segment_char. now rewrite E.
Qed.

(** A string without the separator is one piece. *)
Lemma split_one_piece (sep : ascii) (s : string) :
  Str.all (fun c => negb (Ascii.eqb c sep)) s = true -> Str.split sep s = [s].
Proof.
  induction s as [|c s IH]; [reflexivity|].
  cbn [Str.all Str.split]. intros H. apply andb_true_iff in H as [Hc Hs].
  apply negb_true_iff in Hc. rewrite Hc, (IH Hs). reflexivity.
Qed.

Lemma all_weaken (p q : ascii -> bool) (s : string) :
  (forall c, p c = true -> q c = true) -> Str.all p s = true -> Str.all q s = true.
Proof.
  intros Hpq. induction s as [|c s IH]; [reflexivity|].
  cbn [Str.all]. intros H. apply andb_true_iff in H as [Hc Hs].
  now rewrite (Hpq c Hc), (IH Hs).
Qed.

(** No character of an encoded id is one of [separators], when those are
    neither unreserved nor the percent sign. *)
Lemma encodeURIComponent_avoids (separators : string) (id : string) :
  Str.all (fun c => negb (segment_char c)) separators = true ->
  Str.all (fun c => negb (Str.mem c separators)) (encodeURIComponent id) = true.
Proof.
  intros Hsep. apply (all_weaken segment_char); [|apply encodeURIComponent_chars].
  intros c Hc. apply negb_true_iff.
  induction separators as [|d rest IH]; [reflexivity|].
  cbn [Str.all Str.mem] in *. apply andb_true_iff in Hsep as [Hd Hrest].
  rewrite (IH Hrest), orb_false_r.
  destruct (Ascii.eqb c d) eqn:E; [|reflexivity].
  apply Ascii.eqb_eq in E. subst d. rewrite Hc in Hd. discriminate.
Qed.

(** C8: whatever the id, its encoding is a well-formed segment that holds
    none of the characters that delimit parts of a URL, so the path of
    [getWorkflow] splits at [/] into [api], [v1], [workflows] and the one
    segment of the id; every method that takes an id puts that same segment
    in its path; and the id [a/b] gives [/api/v1/workflows/a%2Fb]. *)
Theorem id_paths_well_formed (c : N8nClient) (id : string) (data : Value) (net : Fetch) :
  let segment := encodeURIComponent id in
  well_formed_segment segment = true /\
  Str.all (fun ch => negb (Str.mem ch "/?#&=+ ")) segment = true /\
  Str.split "/" ("/api/v1/workflows/" ++ segment) = [""; "api"; "v1"; "workflows"; segment] /\
  urls (getWorkflow c id) net = [baseUrl c ++ "/api/v1/workflows/" ++ segment] /\
  urls (updateWorkflow c id data) net = [baseUrl c ++ "/api/v1/workflows/" ++ segment] /\
  urls (deleteWorkflow c id) net = [baseUrl c ++ "/api/v1/workflows/" ++ segment] /\
  urls (executeWorkflow c id data) net
  = [baseUrl c ++ "/api/v1/workflows/" ++ segment ++ "/execute"] /\
  urls (getExecution c id) net = [baseUrl c ++ "/api/v1/executions/" ++ segment] /\
  urls (stopExecution c id) net = [baseUrl c ++ "/api/v1/executions/" ++ segment] /\
  urls (getCredential c id) net = [baseUrl c ++ "/api/v1/credentials/" ++ segment] /\
  urls (updateCredential c id data) net = [baseUrl c ++ "/api/v1/credentials/" ++ segment] /\
  urls (deleteCredential c id) net = [baseUrl c ++ "/api/v1/credentials/" ++ segment] /\
  urls (getVariable c id) net = [baseUrl c ++ "/api/v1/variables/" ++ segment] /\
  urls (updateVariable c id data) net = [baseUrl c ++ "/api/v1/variables/" ++ segment] /\
  urls (deleteVariable c id) net = [baseUrl c ++ "/api/v1/variables/" ++ segment] /\
  urls (activateWorkflow c id) net = [baseUrl c ++ "/api/v1/workflows/" ++ segment] /\
  urls (deactivateWorkflow c id) net = [baseUrl c ++ "/api/v1/workflows/" ++ segment] /\
  getWorkflow c "a/b" = request c "/api/v1/workflows/a%2Fb" no_options /\
  urls (getWorkflow c "a/b") net = [baseUrl c ++ "/api/v1/workflows/a%2Fb"].
Proof.
  intros segment.
  split; [apply encodeURIComponent_well_formed|].
  split; [now apply encodeURIComponent_avoids|].
  split.
  { assert (H : Str.split "/" segment = [segment]).
    { apply split_one_piece.
      apply (all_weaken (fun ch => negb (Str.mem ch "/?#&=+ ")));
        [|now apply encodeURIComponent_avoids].
      intros ch. cbn [Str.mem]. destruct (Ascii.eqb ch "/"); [discriminate | reflexivity]. }
    cbn. rewrite H. reflexivity. }
  unfold urls, getWorkflow, updateWorkflow, deleteWorkflow, executeWorkflow, getExecution,
    stopExecution, getCredential, updateCredential, deleteCredential, getVariable,
    updateVariable, deleteVariable, activateWorkflow, deactivateWorkflow, updateWorkflow.
  rewrite !request_calls. repeat split.
Qed.

(** ** Activation *)

(** C9: [activateWorkflow(id)] is the computation
    [updateWorkflow(id, {active: true})] and [deactivateWorkflow(id)] is
    [updateWorkflow(id, {active: false})]: against any network each pair
    sends the same single PATCH request, to the path of the workflow, with
    the same serialized body, and completes the same way. *)
Theorem activateWorkflow_is_updateWorkflow (c : N8nClient) (id : string) (net : Fetch) :
  activateWorkflow c id = updateWorkflow c id (VObject [("active", VBool true)]) /\
  deactivateWorkflow c id = updateWorkflow c id (VObject [("active", VBool false)]) /\
  calls (activateWorkflow c id) net = [activation_call c id true] /\
  calls (updateWorkflow c id (VObject [("active", VBool true)])) net
  = [activation_call c id true] /\
  calls (deactivateWorkflow c id) net = [activation_call c id false] /\
  calls (updateWorkflow c id (VObject [("active", VBool false)])) net
  = [activation_call c id false] /\
  http_method (activation_call c id true) = "PATCH" /\
  completion (activateWorkflow c id) net
  = completion (updateWorkflow c id (VObject [("active", VBool true)])) net /\
  completion (deactivateWorkflow c id) net
  = completion (updateWorkflow c id (VObject [("active", VBool false)])) net.
Proof.
  unfold activateWorkflow, deactivateWorkflow, updateWorkflow.
  rewrite !request_calls. repeat split.
Qed.

(* ================================================================== *)
(** * Further properties of the client *)
(* ================================================================== *)

(** ** What every method sends *)

(** Whatever the method and whatever the network does, exactly one call to
    [fetch] is made: [request] with the path and options of the method. *)
Lemma invoke_calls (c : N8nClient) (m : MethodCall) (net : Fetch) :
  calls (invoke c m) net = [request_call c (path_of m) (options_of m)].
Proof.
  destruct m; try apply request_calls; unfold calls; cbn [invoke].
  - rewrite getNodeType_run. reflexivity.
  - unfold bind. rewrite testConnection_run. reflexivity.
  - rewrite selfTest_run. reflexivity.
Qed.

(** Outside the diagnostic helpers and [getNodeType], a method completes as
    its request does. *)
Lemma invoke_completion (c : N8nClient) (m : MethodCall) (net : Fetch) :
  is_diagnostic m = false ->
  completion (invoke c m) net =
  match m, completion (request c (path_of m) (options_of m)) net with
  | GetNodeType name, Normal types => call_find types name
  | _, outcome => outcome
  end.
Proof.
  intros Hm. destruct m; try discriminate Hm; cbn [invoke path_of options_of];
    try (destruct (completion _ net); reflexivity).
  unfold completion at 1. rewrite getNodeType_run. cbn [snd].
  unfold listNodeTypes. destruct (completion _ net); reflexivity.
Qed.


(** X2: every request a public method sends carries exactly the three
    headers [Content-Type: application/json], [Accept: application/json] and
    [X-N8N-API-KEY] with the client's key, in that order. *)
Theorem every_method_sends_default_headers (c : N8nClient) (m : MethodCall) (net : Fetch) :
  map (fun call => headers (init call)) (calls (invoke c m) net)
  = [Some [("Content-Type", "application/json");
           ("Accept", "application/json");
           ("X-N8N-API-KEY", apiKey c)]].
Proof.
  rewrite invoke_calls. cbn [map request_call init headers].
  destruct m; reflexivity.
Qed.

(** X3: the API key reaches a request through that header only: two clients
    with the same base URL send, for the same method call, requests with the
    same URL, method and body, whatever their keys. *)
Theorem api_key_only_in_headers
  (c1 c2 : N8nClient) (m : MethodCall) (net1 net2 : Fetch) :
  baseUrl c1 = baseUrl c2 ->
  map call_shape (calls (invoke c1 m) net1) = map call_shape (calls (invoke c2 m) net2).
Proof.
  intros Hbase. rewrite !invoke_calls.
  unfold call_shape, http_method. cbn [map request_call url init method body].
  now rewrite Hbase.
Qed.

Lemma api_key_only_in_headers_witness :
  map call_shape
      (calls (invoke (constructor "http://x/" "first key") (GetWorkflow "7"))
             (rejecting VNull))
  = map call_shape
        (calls (invoke (constructor "http://x" "second key") (GetWorkflow "7"))
               (always not_found_response)).
Proof.
  apply (api_key_only_in_headers (constructor "http://x/" "first key")
           (constructor "http://x" "second key")).
  reflexivity.
Defined.

(** X4: a request without a body is what the reading and deleting methods
    send, and only POST and PATCH requests can carry one: a call sent as GET
    or DELETE has no body. *)
Theorem get_and_delete_send_no_body
  (c : N8nClient) (m : MethodCall) (net : Fetch) (call : FetchCall) :
  In call (calls (invoke c m) net) ->
  http_method call = "GET" \/ http_method call = "DELETE" ->
  body (init call) = None.
Proof.
  rewrite invoke_calls. intros [<-|[]].
  unfold http_method. cbn [request_call init method body].
  destruct m; cbn [options_of with_body without_body no_options method body];
    intros [H|H]; try reflexivity; discriminate H.
Qed.

Lemma get_and_delete_send_no_body_witness :
  let c := constructor "http://x" "key" in
  body (init (request_call c (path_of (DeleteVariable "v 1")) (options_of (DeleteVariable "v 1"))))
  = None.
Proof.
  intros c.
  apply (get_and_delete_send_no_body c (DeleteVariable "v 1") (rejecting VNull)).
  - left. reflexivity.
  - right. reflexivity.
Defined.

(** X5: outside [testConnection] and [selfTest], a method fails whenever its
    request fails, with the very value the request failed with - the
    rejection of [fetch], the error of a status outside 200-299 or the
    failure to read the body. *)
Theorem methods_propagate_request_failure
  (c : N8nClient) (m : MethodCall) (net : Fetch) (e : Value) :
  is_diagnostic m = false ->
  completion (request c (path_of m) (options_of m)) net = Throw e ->
  completion (invoke c m) net = Throw e.
Proof.
  intros Hm Hfail. rewrite (invoke_completion c m net Hm).
  destruct m; try discriminate Hm; now rewrite Hfail.
Qed.

Lemma methods_propagate_request_failure_witness :
  let c := constructor "http://x" "key" in
  completion (invoke c (GetNodeType "n8n-nodes-base.webhook")) (always not_found_response)
  = Throw (new_Error "n8n API error 404 Not Found: not found").
Proof.
  intros c.
  apply (methods_propagate_request_failure c (GetNodeType "n8n-nodes-base.webhook")
           (always not_found_response)).
  - reflexivity.
  - now rewrite request_completion.
Defined.

(** ** Headers and response decoding in [request] *)

Lemma assoc_assign (o : list (string * string)) (k k' v : string) :
  assoc k (assign o k' v) = if String.eqb k' k then Some v else assoc k o.
Proof.
  induction o as [|[a b] rest IH]; cbn [assign assoc]; [reflexivity|].
  destruct (String.eqb a k') eqn:Eak; cbn [assoc].
  - apply String.eqb_eq in Eak. subst a. destruct (String.eqb k' k); reflexivity.
  - rewrite IH. destruct (String.eqb a k) eqn:Ea; [|reflexivity].
    apply String.eqb_eq in Ea. subst a. now rewrite String.eqb_sym, Eak.
Qed.

Lemma assoc_app (k : string) (a b : list (string * string)) :
  assoc k (a ++ b)%list = match assoc k a with Some v => Some v | None => assoc k b end.
Proof.
  induction a as [|[x y] a IH]; cbn [app assoc]; [reflexivity|].
  destruct (String.eqb x k); [reflexivity | exact IH].
Qed.

Lemma assoc_spread (o e : list (string * string)) (k : string) :
  assoc k (spread o (Some e)) =
  match assoc k (rev e) with
  | Some v => Some v
  | None => assoc k o
  end.
Proof.
  unfold spread. revert o. induction e as [|[x y] e IH]; intros o; [reflexivity|].
  cbn [fold_left fst snd rev]. rewrite IH, assoc_app, assoc_assign. cbn [assoc].
  destruct (assoc k (rev e)); [reflexivity|].
  destruct (String.eqb x k); reflexivity.
Qed.

Lemma assign_keys (o : list (string * string)) (k v x : string) :
  In x (map fst (assign o k v)) <-> x = k \/ In x (map fst o).
Proof.
  induction o as [|[a b] rest IH]; cbn [assign map fst In].
  - intuition auto.
  - destruct (String.eqb a k) eqn:E; cbn [map fst In].
    + apply String.eqb_eq in E. subst a. intuition auto.
    + rewrite IH. intuition auto.
Qed.

Lemma assign_NoDup (o : list (string * string)) (k v : string) :
  NoDup (map fst o) -> NoDup (map fst (assign o k v)).
Proof.
  induction o as [|[a b] rest IH]; cbn [assign map fst]; intros Hnd.
  - constructor; [intros [] | constructor].
  - inversion Hnd as [|? ? Hnotin Hrest]; subst.
    destruct (String.eqb a k) eqn:E; cbn [map fst].
    + apply String.eqb_eq in E. subst a. now constructor.
    + constructor; [|now apply IH].
      rewrite assign_keys. intros [->|Hin]; [|contradiction].
      rewrite String.eqb_refl in E. discriminate.
Qed.

(** X6: the headers of a request are the fixed three, overridden and
    extended by the caller's: for every name the caller gives, the value sent
    is the caller's (the last one given); for every other name it is the
    fixed one; and no name is sent twice. *)
Theorem caller_headers_take_precedence (c : N8nClient) (options : RequestInit) (k : string) :
  assoc k (request_headers c options) =
  match headers options with
  | None => assoc k (default_headers c)
  | Some given =>
      match assoc k (rev given) with
      | Some v => Some v
      | None => assoc k (default_headers c)
      end
  end
  /\ NoDup (map fst (request_headers c options)).
Proof.
  unfold request_headers. fold (default_headers c). split.
  - destruct (headers options) as [given|]; [apply assoc_spread | reflexivity].
  - assert (Hd : NoDup (map fst (default_headers c))).
    { cbn. repeat constructor; cbn; intuition discriminate. }
    destruct (headers options) as [given|]; [|exact Hd].
    unfold spread. revert Hd. generalize (default_headers c).
    induction given as [|[x y] given IH]; intros o Ho; [exact Ho|].
    cbn [fold_left fst snd]. apply IH, assign_NoDup, Ho.
Qed.

Example caller_headers_example (c : N8nClient) :
  request_headers c {| method := None;
                       headers := Some [("Accept", "text/plain"); ("X-Trace", "1")];
                       body := None |}
  = [("Content-Type", "application/json"); ("Accept", "text/plain");
     ("X-N8N-API-KEY", apiKey c); ("X-Trace", "1")].
Proof. reflexivity. Qed.

Lemma string_or_some (s : string) : string_or (Some s) "" = s.
Proof. unfold string_or. destruct (String.eqb s "") eqn:E; [|reflexivity].
  apply String.eqb_eq in E. now subst. Qed.

(** X7: a response in the success range whose content type is missing or
    does not contain [application/json] is returned as its text, a string,
    without any JSON parsing; if reading the text fails, that failure is the
    call's. *)
Theorem request_returns_text_unless_json
  (c : N8nClient) (path : string) (options : RequestInit) (net : Fetch) (r : Response) :
  net (request_call c path options) = Normal r ->
  ok r = true ->
  (forall ct, content_type r = Some ct -> Str.includes "application/json" ct = false) ->
  completion (request c path options) net =
  match text r with
  | Normal s => Normal (VString s)
  | Throw e => Throw e
  end.
Proof.
  intros Hnet Hok Hct. rewrite request_completion, Hnet. unfold request_outcome.
  rewrite Hok. cbn [negb].
  assert (Hno : Str.includes "application/json" (string_or (content_type r) "") = false).
  { destruct (content_type r) as [ct|]; [|reflexivity].
    rewrite string_or_some. now apply Hct. }
  rewrite Hno. destruct (text r); reflexivity.
Qed.

Lemma request_returns_text_unless_json_witness :
  let c := constructor "http://x" "key" in
  let page := {| status := 200; statusText := "OK";
                 content_type := Some "text/html; charset=utf-8";
                 text := Normal "<html>[1,2]</html>";
                 json := Throw (VError "SyntaxError" "Unexpected token '<'") |} in
  completion (request c "/api/v1/health" no_options) (always page)
  = Normal (VString "<html>[1,2]</html>").
Proof.
  intros c page.
  apply (request_returns_text_unless_json c "/api/v1/health" no_options (always page) page).
  - reflexivity.
  - reflexivity.
  - intros ct H. injection H as <-. reflexivity.
Defined.

(** X8: a response in the success range announced as JSON whose body parses
    to anything but [null] gives that parsed body, unless the body has a
    truthy [data] member, which is then what the call returns; nothing else
    is ever returned. *)
Theorem request_json_returns_data_or_body
  (c : N8nClient) (path : string) (options : RequestInit) (net : Fetch)
  (r : Response) (ct : string) (parsed : Value) :
  net (request_call c path options) = Normal r ->
  ok r = true ->
  content_type r = Some ct ->
  Str.includes "application/json" ct = true ->
  json r = Normal parsed ->
  is_nullish parsed = false ->
  exists data,
    Get parsed "data" = Normal data /\
    completion (request c path options) net
    = Normal (if ToBoolean data then data else parsed).
Proof.
  intros Hnet Hok Hct Hinc Hjson Hnn.
  assert (Hget : exists d, Get parsed "data" = Normal d).
  { destruct parsed; try discriminate; cbn [Get]; try (eexists; reflexivity).
    - destruct (lookup "data" props); eexists; reflexivity. }
  destruct Hget as [d Hd]. exists d. split; [exact Hd|].
  rewrite request_completion, Hnet. unfold request_outcome, js_or.
  now rewrite Hok, Hct, string_or_some, Hinc, Hjson, Hd.
Qed.

Lemma request_json_returns_data_or_body_witness :
  let c := constructor "http://x" "key" in
  let tags := VArray [VObject [("id", VString "1"); ("name", VString "prod")]] in
  exists data,
    Get (VObject [("data", tags); ("nextCursor", VNull)]) "data" = Normal data /\
    completion (request c "/api/v1/tags" no_options)
               (always (json_response (VObject [("data", tags); ("nextCursor", VNull)])))
    = Normal (if ToBoolean data then data
              else VObject [("data", tags); ("nextCursor", VNull)]).
Proof.
  intros c tags.
  apply (request_json_returns_data_or_body c "/api/v1/tags" no_options
           (always (json_response (VObject [("data", tags); ("nextCursor", VNull)])))
           (json_response (VObject [("data", tags); ("nextCursor", VNull)]))
           "application/json; charset=utf-8");
    reflexivity.
Defined.

(** ** The constructor *)

Lemma all_slashes_replicate (s : string) :
  Str.all (Ascii.eqb "/") s = true -> s = Str.replicate (String.length s) "/".
Proof.
  induction s as [|a s IH]; [reflexivity|].
  cbn [Str.all String.length Str.replicate]. intros H.
  apply andb_true_iff in H as [Ha Hs]. apply Ascii.eqb_eq in Ha. subst a.
  now rewrite <- (IH Hs).
Qed.

Lemma replace_trailing_slashes_split (s : string) :
  exists n, s = replace_trailing_slashes s ++ Str.replicate n "/".
Proof.
  induction s as [|a s [n IH]]; [exists 0%nat; reflexivity|].
  cbn [replace_trailing_slashes].
  destruct (Ascii.eqb a "/" && Str.all (Ascii.eqb "/") s) eqn:E.
  - apply andb_true_iff in E as [Ea Es]. apply Ascii.eqb_eq in Ea. subst a.
    exists (S (String.length s)). cbn [Str.replicate append].
    now rewrite <- (all_slashes_replicate s Es).
  - exists n. cbn [append]. now rewrite <- IH.
Qed.

Lemma all_slashes_last (a : ascii) (s : string) :
  Str.all (Ascii.eqb "/") (String a s) = true -> last_char (String a s) = Some "/"%char.
Proof.
  revert a. induction s as [|b s IH]; intros a H.
  - cbn [Str.all] in H. apply andb_true_iff in H as [Ha _].
    apply Ascii.eqb_eq in Ha. now subst.
  - cbn [Str.all] in H. apply andb_true_iff in H as [_ Hs].
    cbn [last_char]. apply IH. exact Hs.
Qed.

Lemma replace_trailing_slashes_fixed (s : string) :
  last_char s <> Some "/"%char -> replace_trailing_slashes s = s.
Proof.
  induction s as [|a s IH]; [reflexivity|]. intros Hlast.
  cbn [replace_trailing_slashes].
  destruct (Ascii.eqb a "/" && Str.all (Ascii.eqb "/") s) eqn:E.
  - exfalso. apply Hlast. apply all_slashes_last.
    apply andb_true_iff in E as [Ea Es]. cbn [Str.all].
    now rewrite (Ascii.eqb_sym "/" a), Ea, Es.
  - f_equal. apply IH. destruct s as [|b s]; [discriminate | exact Hlast].
Qed.

(** X9: the constructor keeps the API key and cuts the base URL exactly at
    its trailing slashes: what was given is what is kept followed by slashes
    only, what is kept ends in no slash (so [baseUrl + path] has a single
    slash where the two meet), and constructing from what is kept changes
    nothing. *)
Theorem constructor_cuts_trailing_slashes (given key : string) :
  let c := constructor given key in
  apiKey c = key /\
  (exists n, given = baseUrl c ++ Str.replicate n "/") /\
  last_char (baseUrl c) <> Some "/"%char /\
  constructor (baseUrl c) key = c.
Proof.
  cbv zeta. unfold constructor. cbn [baseUrl apiKey].
  split; [reflexivity|]. split; [apply replace_trailing_slashes_split|].
  split; [apply replace_trailing_slashes_last|].
  f_equal. apply replace_trailing_slashes_fixed, replace_trailing_slashes_last.
Qed.

(** X10: a base URL that does not end in a slash is kept as it is, slashes
    inside it included. *)
Theorem constructor_keeps_clean_base_url (given key : string) :
  last_char given <> Some "/"%char ->
  baseUrl (constructor given key) = given.
Proof. intros H. apply replace_trailing_slashes_fixed, H. Qed.

Lemma constructor_keeps_clean_base_url_witness :
  baseUrl (constructor "https://n8n.example.com//proxy/n8n" "key")
  = "https://n8n.example.com//proxy/n8n".
Proof.
  apply (constructor_keeps_clean_base_url "https://n8n.example.com//proxy/n8n" "key").
  discriminate.
Defined.

(** ** Encoded ids *)

Lemma hex_value_upper (n : N) :
  (n < 16)%N -> hex_value (Str.hex_digit_upper n) = Some n.
Proof.
  intros H.
  assert (Hcases : In n [0;1;2;3;4;5;6;7;8;9;10;11;12;13;14;15]%N).
  { cbn [In]. lia. }
  cbn [In] in Hcases.
  repeat (destruct Hcases as [<-|Hcases]; [reflexivity|]). contradiction.
Qed.

Lemma percent_decode_byte (c : ascii) (rest : string) :
  percent_decode (Str.percent_byte c ++ rest)
  = match percent_decode rest with
    | Some d => Some (String c d)
    | None => None
    end.
Proof.
  unfold Str.percent_byte. cbn [append percent_decode Ascii.eqb Bool.eqb].
  assert (Hn : (N_of_ascii c < 256)%N) by apply N_ascii_bounded.
  rewrite !hex_value_upper.
  - destruct (percent_decode rest); [|reflexivity].
    rewrite <- (N.div_mod (N_of_ascii c) 16) by discriminate.
    now rewrite ascii_N_embedding.
  - apply N.mod_lt. discriminate.
  - apply N.Div0.div_lt_upper_bound. exact Hn.
Qed.

(** Decoding an encoded id gives the id back. *)
Lemma percent_decode_encodeURIComponent (id : string) :
  percent_decode (encodeURIComponent id) = Some id.
Proof.
  induction id as [|c id IH]; [reflexivity|].
  cbn [encodeURIComponent]. destruct (uri_unreserved c) eqn:E.
  - change (String c "" ++ encodeURIComponent id) with (String c (encodeURIComponent id)).
    cbn [percent_decode]. destruct (unreserved_pchar c E) as [-> _]. now rewrite IH.
  - now rewrite percent_decode_byte, IH.
Qed.

Lemma append_inv_head (a x y : string) : a ++ x = a ++ y -> x = y.
Proof.
  induction a as [|c a IH]; cbn [append]; intros H; [exact H|].
  injection H as H. exact (IH H).
Qed.

(** X11: different ids never share a path: two calls of [getWorkflow] on a
    client request the same URL only for the same id (the encoding can be
    undone: decoding the segment gives the id back). *)
Theorem encoded_ids_stay_distinct (c : N8nClient) (id1 id2 : string) (net : Fetch) :
  urls (getWorkflow c id1) net = urls (getWorkflow c id2) net ->
  id1 = id2.
Proof.
  unfold urls, getWorkflow. rewrite !request_calls. cbn [map request_call url].
  intros H. injection H as H.
  apply append_inv_head in H.
  apply (append_inv_head "/api/v1/workflows/"
           (encodeURIComponent id1) (encodeURIComponent id2)) in H.
  assert (Hdec : percent_decode (encodeURIComponent id1)
                 = percent_decode (encodeURIComponent id2)) by now rewrite H.
  rewrite !percent_decode_encodeURIComponent in Hdec. now injection Hdec.
Qed.

Lemma encoded_ids_stay_distinct_witness :
  let c := constructor "http://x" "key" in
  urls (getWorkflow c ("a" ++ "/b")) (rejecting VNull)
  = urls (getWorkflow c "a/b") (rejecting VNull) /\
  "a" ++ "/b" = "a/b".
Proof.
  intros c. split; [reflexivity|].
  apply (encoded_ids_stay_distinct c ("a" ++ "/b") "a/b" (rejecting VNull)).
  reflexivity.
Defined.

Example encoded_ids_differ (c : N8nClient) (net : Fetch) :
  urls (getWorkflow c "a/b") net <> urls (getWorkflow c "a%2Fb") net.
Proof.
  unfold urls, getWorkflow. rewrite !request_calls. cbn [map request_call url].
  intros H. injection H as H. apply append_inv_head in H. discriminate H.
Qed.

Lemma percent_decode_length_bounded (n : nat) (s d : string) :
  (String.length s <= n)%nat ->
  percent_decode s = Some d -> (String.length d <= String.length s)%nat.
Proof.
  revert s d. induction n as [|n IH]; intros s d Hn.
  - destruct s; [|cbn [String.length] in Hn; lia].
    intros H. injection H as <-. apply Nat.le_refl.
  - destruct s as [|c s]; cbn [percent_decode].
    + intros H. injection H as <-. apply Nat.le_refl.
    + cbn [String.length] in Hn. destruct (Ascii.eqb c "%").
      * destruct s as [|h [|l rest]]; try discriminate.
        destruct (hex_value h), (hex_value l); try discriminate.
        destruct (percent_decode rest) as [d'|] eqn:Er; try discriminate.
        intros H. injection H as <-. cbn [String.length] in *.
        apply IH in Er; lia.
      * destruct (percent_decode s) as [d'|] eqn:Er; try discriminate.
        intros H. injection H as <-. cbn [String.length].
        apply IH in Er; lia.
Qed.

Lemma percent_decode_length (s d : string) :
  percent_decode s = Some d -> (String.length d <= String.length s)%nat.
Proof. apply (percent_decode_length_bounded (String.length s)), Nat.le_refl. Qed.

(** X12: an id is sent as it is exactly when it is made of letters, digits
    and the marks [-_.!~*'()] only; any other character makes the segment
    differ from the id. *)
Theorem plain_ids_unchanged (id : string) :
  encodeURIComponent id = id <-> Str.all uri_unreserved id = true.
Proof.
  split.
  - intros H.
    assert (Hchars := encodeURIComponent_chars id). rewrite H in Hchars.
    assert (Hdec := percent_decode_encodeURIComponent id). rewrite H in Hdec.
    clear H. revert Hchars Hdec. induction id as [|c id IH]; [reflexivity|].
    cbn [Str.all percent_decode]. unfold segment_char at 1.
    destruct (Ascii.eqb c "%") eqn:Ec.
    + intros _ Hdec. exfalso.
      destruct id as [|h [|l rest]]; try discriminate Hdec.
      destruct (hex_value h), (hex_value l); try discriminate Hdec.
      destruct (percent_decode rest) as [d|] eqn:Er; try discriminate Hdec.
      injection Hdec as _ Hlen.
      apply percent_decode_length in Er. subst d. cbn [String.length] in Er. lia.
    + rewrite orb_false_r. intros Hall Hdec.
      apply andb_true_iff in Hall as [Hc Hrest]. rewrite Hc. cbn [andb].
      apply IH; [exact Hrest|].
      destruct (percent_decode id); [|discriminate]. now injection Hdec as ->.
  - induction id as [|c id IH]; [reflexivity|].
    cbn [Str.all encodeURIComponent]. intros H. apply andb_true_iff in H as [Hc Hrest].
    rewrite Hc, (IH Hrest). reflexivity.
Qed.

(** ** The query of [getExecutions] *)

Lemma percent_byte_form_chars (c : ascii) :
  Str.all (fun ch => URLSearchParams.form_safe ch || Ascii.eqb ch "+" || Ascii.eqb ch "%")
          (Str.percent_byte c) = true.
Proof. destruct c as [[] [] [] [] [] [] [] []]; reflexivity. Qed.

(** An encoded name or value is made of letters, digits, [*-._], [+] and
    [%]. *)
Lemma form_encode_chars (s : string) :
  Str.all (fun ch => URLSearchParams.form_safe ch || Ascii.eqb ch "+" || Ascii.eqb ch "%")
          (URLSearchParams.form_encode s) = true.
Proof.
  induction s as [|c s IH]; [reflexivity|].
  cbn [URLSearchParams.form_encode]. rewrite all_app, IH, andb_true_r.
  destruct (Ascii.eqb c " "); [reflexivity|].
  destruct (URLSearchParams.form_safe c) eqn:E; [|apply percent_byte_form_chars].
  cbn [Str.all]. now rewrite E.
Qed.

Lemma form_encode_avoids (separators s : string) :
  Str.all (fun c => negb (URLSearchParams.form_safe c || Ascii.eqb c "+" || Ascii.eqb c "%"))
          separators = true ->
  Str.all (fun c => negb (Str.mem c separators)) (URLSearchParams.form_encode s) = true.
Proof.
  intros Hsep.
  apply (all_weaken
           (fun ch => URLSearchParams.form_safe ch || Ascii.eqb ch "+" || Ascii.eqb ch "%"));
    [|apply form_encode_chars].
  intros c Hc. apply negb_true_iff.
  induction separators as [|d rest IH]; [reflexivity|].
  cbn [Str.all Str.mem] in *. apply andb_true_iff in Hsep as [Hd Hrest].
  rewrite (IH Hrest), orb_false_r.
  destruct (Ascii.eqb c d) eqn:E; [|reflexivity].
  apply Ascii.eqb_eq in E. subst d. rewrite Hc in Hd. discriminate.
Qed.

Lemma split_at_separator (sep : ascii) (a rest : string) :
  Str.all (fun c => negb (Ascii.eqb c sep)) a = true ->
  Str.split sep (a ++ String sep rest) = a :: Str.split sep rest.
Proof.
  induction a as [|c a IH]; cbn [append Str.all Str.split]; intros H.
  - now rewrite Ascii.eqb_refl.
  - apply andb_true_iff in H as [Hc Ha]. apply negb_true_iff in Hc.
    now rewrite Hc, (IH Ha).
Qed.

Lemma form_encode_no_ampersand (s : string) :
  Str.all (fun c => negb (Ascii.eqb c "&")) (URLSearchParams.form_encode s) = true.
Proof.
  apply (all_weaken (fun c => negb (Str.mem c "&=?#/ "))).
  - intros c. cbn [Str.mem]. destruct (Ascii.eqb c "&"); [discriminate | reflexivity].
  - now apply form_encode_avoids.
Qed.

(** X13: whatever characters [lastId] holds, it stays one parameter: its
    encoded form has no [&], [=], [?], [#], [/] or space, and the query
    string splits at [&] into exactly one [name=value] piece per parameter
    given, [limit] first. *)
Theorem getExecutions_values_stay_one_parameter (params : ExecutionsParams) :
  (forall value : string,
      Str.all (fun ch => negb (Str.mem ch "&=?#/ ")) (URLSearchParams.form_encode value)
      = true) /\
  Str.split "&" (URLSearchParams.toString (executions_query params)) =
  match limit params, lastId params with
  | Some n, Some s =>
      ["limit=" ++ URLSearchParams.form_encode (Number_toString n);
       "lastId=" ++ URLSearchParams.form_encode s]
  | Some n, None => ["limit=" ++ URLSearchParams.form_encode (Number_toString n)]
  | None, Some s => ["lastId=" ++ URLSearchParams.form_encode s]
  | None, None => [""]
  end.
Proof.
  split; [intros value; now apply form_encode_avoids|].
  rewrite executions_query_pairs.
  assert (Hpiece : forall (name : string) (v : string),
             Str.all (fun c => negb (Ascii.eqb c "&")) name = true ->
             Str.all (fun c => negb (Ascii.eqb c "&"))
                     (name ++ URLSearchParams.form_encode v) = true).
  { intros name v Hname. now rewrite all_app, Hname, form_encode_no_ampersand. }
  destruct (limit params) as [n|], (lastId params) as [s|];
    cbn [app URLSearchParams.toString map Str.join fst snd]; [| | |reflexivity].
  - match goal with
    | |- Str.split _ ?q = _ =>
        change q with (("limit=" ++ URLSearchParams.form_encode (Number_toString n)) ++
                         String "&" ("lastId=" ++ URLSearchParams.form_encode s))
    end.
    rewrite split_at_separator by (apply Hpiece; reflexivity).
    f_equal. apply split_one_piece, Hpiece. reflexivity.
  - apply (split_one_piece "&" ("limit=" ++ _)), Hpiece. reflexivity.
  - apply (split_one_piece "&" ("lastId=" ++ _)), Hpiece. reflexivity.
Qed.

Example getExecutions_hostile_lastId :
  executions_suffix {| limit := Some (NInt 5); lastId := Some "1&limit=1000 #x" |}
  = "?limit=5&lastId=1%26limit%3D1000+%23x".
Proof. reflexivity. Qed.

(** ** Request bodies *)





Example executeWorkflow_default_body (c : N8nClient) (net : Fetch) :
  map (fun call => body (init call)) (calls (executeWorkflow c "7" VUndefined) net)
  = [Some ("{" ++ JSON.quote "data" ++ ":{}}")].
Proof. unfold executeWorkflow. now rewrite request_calls. Qed.

(** ** [getNodeType] on other responses *)

(** Elements that are not [null] or [undefined] and are not named [name] are
    passed over. *)
Lemma find_by_name_skips (name : string) (before rest : list Value) :
  Forall (fun t => is_nullish t = false) before ->
  Forall (fun t => ~ named name t) before ->
  find_by_name name (before ++ rest)%list = find_by_name name rest.
Proof.
  induction before as [|t before IH]; intros Hnn Hno; [reflexivity|].
  inversion Hnn as [|? ? Ht Hnn']; subst. inversion Hno as [|? ? Hnt Hno']; subst.
  cbn [app find_by_name].
  assert (Hget : exists n, Get t "name" = Normal n).
  { destruct t; try discriminate; cbn [Get]; try (eexists; reflexivity).
    destruct (lookup "name" props); eexists; reflexivity. }
  destruct Hget as [n Hn]. rewrite Hn.
  destruct (strict_eq_string n name) eqn:E; [|now apply IH].
  apply strict_eq_string_iff in E. subst n. contradiction.
Qed.

(** X16: [getNodeType] looks no further than the first match: when the list
    starts with elements that are not named [name] (and are not [null]),
    followed by one that is, that one is returned whatever comes after it. *)
Theorem getNodeType_stops_at_first_match
  (c : N8nClient) (name : string) (net : Fetch) (before after : list Value) (t : Value) :
  completion (listNodeTypes c) net = Normal (VArray (before ++ t :: after)) ->
  Forall (fun x => is_nullish x = false) before ->
  Forall (fun x => ~ named name x) before ->
  named name t ->
  completion (getNodeType c name) net = Normal t.
Proof.
  intros Hlist Hnn Hno Ht.
  unfold completion at 1. rewrite getNodeType_run, Hlist. cbn [snd call_find].
  rewrite (find_by_name_skips name before (t :: after) Hnn Hno).
  cbn [find_by_name]. unfold named in Ht. rewrite Ht.
  replace (strict_eq_string (VString name) name) with true; [reflexivity|].
  symmetry. now apply strict_eq_string_iff.
Qed.

Lemma getNodeType_stops_at_first_match_witness :
  let c := constructor "http://x" "key" in
  let cron := VObject [("name", VString "cron")] in
  let http := VObject [("name", VString "http"); ("version", VNumber (NInt 4))] in
  completion (getNodeType c "http")
             (always (json_response (VObject [("data", VArray [cron; http; VNull])])))
  = Normal http.
Proof.
  intros c cron http.
  apply (getNodeType_stops_at_first_match c "http" _ [cron] [VNull] http).
  - reflexivity.
  - repeat constructor.
  - repeat constructor. discriminate.
  - reflexivity.
Defined.

(** X17: a [null] (or [undefined]) element that comes before any match makes
    [getNodeType] fail with a [TypeError], even when a matching element
    follows it. *)
Theorem getNodeType_fails_on_null_element
  (c : N8nClient) (name : string) (net : Fetch) (before after : list Value) (hole : Value) :
  completion (listNodeTypes c) net = Normal (VArray (before ++ hole :: after)) ->
  Forall (fun x => is_nullish x = false) before ->
  Forall (fun x => ~ named name x) before ->
  is_nullish hole = true ->
  exists message, completion (getNodeType c name) net = Throw (TypeError message).
Proof.
  intros Hlist Hnn Hno Hhole.
  unfold completion at 1. rewrite getNodeType_run, Hlist. cbn [snd call_find].
  rewrite (find_by_name_skips name before (hole :: after) Hnn Hno).
  destruct hole; try discriminate Hhole; eexists; reflexivity.
Qed.

Lemma getNodeType_fails_on_null_element_witness :
  let c := constructor "http://x" "key" in
  exists message,
    completion (getNodeType c "http")
               (always (json_response
                          (VArray [VObject [("name", VString "cron")]; VNull;
                                   VObject [("name", VString "http")]])))
    = Throw (TypeError message).
Proof.
  intros c.
  apply (getNodeType_fails_on_null_element c "http" _
           [VObject [("name", VString "cron")]] [VObject [("name", VString "http")]] VNull).
  - reflexivity.
  - repeat constructor.
  - repeat constructor. discriminate.
  - reflexivity.
Defined.

(** X18: when the node-type response is not an array - an object without a
    truthy [data] member, a string, a number - [getNodeType] fails with a
    [TypeError]; it does not return [undefined]. *)
Theorem getNodeType_fails_unless_array
  (c : N8nClient) (name : string) (net : Fetch) (types : Value) :
  completion (listNodeTypes c) net = Normal types ->
  Array_isArray types = false ->
  exists message, completion (getNodeType c name) net = Throw (TypeError message).
Proof.
  intros Hlist Harr.
  unfold completion at 1. rewrite getNodeType_run, Hlist. cbn [snd].
  destruct types; try discriminate Harr; eexists; reflexivity.
Qed.

Lemma getNodeType_fails_unless_array_witness :
  let c := constructor "http://x" "key" in
  exists message,
    completion (getNodeType c "http")
               (always (json_response (VObject [("nodes", VArray [])])))
    = Throw (TypeError message).
Proof.
  intros c.
  apply (getNodeType_fails_unless_array c "http"
           (always (json_response (VObject [("nodes", VArray [])])))
           (VObject [("nodes", VArray [])]));
    reflexivity.
Defined.

(** ** [selfTest] *)

(** X19: when the list call succeeds, [selfTest] returns the [ok] report
    with [workflowCount] the length of the array it received, and 0 for any
    other value; it has made the one request of [listWorkflows]. *)
Theorem selfTest_counts_workflows (c : N8nClient) (net : Fetch) (workflows : Value) :
  completion (listWorkflows c) net = Normal workflows ->
  completion (selfTest c) net =
  Normal (VObject
            [("status", VString "ok");
             ("message", VString "Connection successful");
             ("details",
              VObject [("workflowCount",
                        VNumber (NInt (match workflows with
                                       | VArray elems => Z.of_nat (List.length elems)
                                       | _ => 0
                                       end)))])]) /\
  calls (selfTest c) net = calls (listWorkflows c) net.
Proof.
  intros H. unfold completion at 1, calls. rewrite selfTest_run, listWorkflows_run, H.
  cbn [fst snd]. split; [|reflexivity].
  destruct workflows; reflexivity.
Qed.

Lemma selfTest_counts_workflows_witness :
  let c := constructor "http://x" "key" in
  let two := VArray [VObject [("id", VString "1")]; VObject [("id", VString "2")]] in
  completion (selfTest c) (always (json_response (VObject [("data", two)])))
  = Normal (selfTest_ok 2).
Proof.
  intros c two.
  apply (selfTest_counts_workflows c
           (always (json_response (VObject [("data", two)]))) two).
  reflexivity.
Defined.

(** X20: when the list call fails with a value that is not [undefined] or
    [null] and that [String] can convert, [selfTest] returns the [error]
    report: its [message] is the failure's [message] member when that is
    truthy and [Connection failed] otherwise, its [details.error] the string
    form of the failure; no further request is made. *)
Theorem selfTest_reports_failure
  (c : N8nClient) (net : Fetch) (error : Value) (str : string) :
  completion (listWorkflows c) net = Throw error ->
  is_nullish error = false ->
  ToString error = Normal str ->
  exists message,
    Get error "message" = Normal message /\
    completion (selfTest c) net =
    Normal (VObject
              [("status", VString "error");
               ("message", if ToBoolean message then message
                           else VString "Connection failed");
               ("details", VObject [("error", VString str)])]) /\
    calls (selfTest c) net = calls (listWorkflows c) net.
Proof.
  intros H Hnn Hstr.
  assert (Hget : exists m, Get error "message" = Normal m).
  { destruct error; try discriminate; cbn [Get]; try (eexists; reflexivity).
    destruct (lookup "message" props); eexists; reflexivity. }
  destruct Hget as [m Hm]. exists m. split; [exact Hm|].
  unfold completion at 1, calls. rewrite selfTest_run, listWorkflows_run, H, Hm, Hstr.
  split; reflexivity.
Qed.

Lemma selfTest_reports_failure_witness :
  let c := constructor "http://x" "key" in
  let refused := VObject [("code", VString "ECONNREFUSED")] in
  exists message,
    Get refused "message" = Normal message /\
    completion (selfTest c) (rejecting refused) =
    Normal (VObject
              [("status", VString "error");
               ("message", if ToBoolean message then message
                           else VString "Connection failed");
               ("details", VObject [("error", VString "[object Object]")])]) /\
    calls (selfTest c) (rejecting refused) = calls (listWorkflows c) (rejecting refused).
Proof.
  intros c refused.
  apply (selfTest_reports_failure c (rejecting refused) refused "[object Object]");
    reflexivity.
Defined.

(** X21: for a failure that is an [Error] object with a name and a message -
    what [fetch] and [request] themselves throw - the report's [message] is
    the error's message and [details.error] is [name: message]; after a
    response with status outside 200-299 both carry the text of
    [n8n API error ...]. *)
Theorem selfTest_reports_Error (c : N8nClient) (net : Fetch) (name message : string) :
  completion (listWorkflows c) net = Throw (VError name message) ->
  name <> "" ->
  message <> "" ->
  completion (selfTest c) net =
  Normal (VObject
            [("status", VString "error");
             ("message", VString message);
             ("details", VObject [("error", VString (name ++ ": " ++ message))])]).
Proof.
  intros H Hname Hmessage.
  apply String.eqb_neq in Hname. apply String.eqb_neq in Hmessage.
  unfold completion at 1. rewrite selfTest_run, H. cbn [snd].
  change (Get (VError name message) "message") with (Normal (VString message)).
  cbn [ToString]. unfold js_or, ToBoolean, selfTest_error.
  now rewrite Hname, Hmessage.
Qed.

Lemma selfTest_reports_Error_witness :
  let c := constructor "http://x" "key" in
  completion (selfTest c) (always not_found_response) =
  Normal (VObject
            [("status", VString "error");
             ("message", VString "n8n API error 404 Not Found: not found");
             ("details",
              VObject [("error",
                        VString "Error: n8n API error 404 Not Found: not found")])]).
Proof.
  intros c.
  apply (selfTest_reports_Error c (always not_found_response) "Error"
           "n8n API error 404 Not Found: not found").
  - unfold completion. now rewrite listWorkflows_run.
  - discriminate.
  - discriminate.
Defined.

(** ** Unreadable JSON bodies *)

(** X22: a response in the success range announced as JSON makes the call
    fail all the same when its body cannot be parsed (an empty body, for
    one) or parses to [null]: the parse error, or the [TypeError] of reading
    [data] of [null], is what the caller gets. *)
Theorem request_fails_on_unreadable_json
  (c : N8nClient) (path : string) (options : RequestInit) (net : Fetch)
  (r : Response) (ct : string) :
  net (request_call c path options) = Normal r ->
  ok r = true ->
  content_type r = Some ct ->
  Str.includes "application/json" ct = true ->
  (forall parsed, json r = Normal parsed -> is_nullish parsed = true) ->
  exists e,
    completion (request c path options) net = Throw e /\
    (forall parse_error, json r = Throw parse_error -> e = parse_error).
Proof.
  intros Hnet Hok Hct Hinc Hbody.
  rewrite request_completion, Hnet. unfold request_outcome.
  rewrite Hok, Hct, string_or_some, Hinc. cbn [negb].
  destruct (json r) as [parsed|parse_error].
  - specialize (Hbody parsed eq_refl).
    destruct parsed; try discriminate Hbody; eexists; (split; [reflexivity | discriminate]).
  - exists parse_error. split; [reflexivity|]. intros e' H. now injection H.
Qed.

Lemma request_fails_on_unreadable_json_witness :
  let c := constructor "http://x" "key" in
  let empty := {| status := 200; statusText := "OK";
                  content_type := Some "application/json";
                  text := Normal "";
                  json := Throw (VError "SyntaxError" "Unexpected end of JSON input") |} in
  exists e,
    completion (request c "/api/v1/workflows/7" (without_body "DELETE")) (always empty)
    = Throw e /\
    (forall parse_error, json empty = Throw parse_error -> e = parse_error).
Proof.
  intros c empty.
  apply (request_fails_on_unreadable_json c "/api/v1/workflows/7" (without_body "DELETE")
           (always empty) empty "application/json"); try reflexivity.
  intros parsed H. discriminate H.
Defined.
